(** * MNIST IDX loader ([mnist_loader.py]): a shallow embedding and its properties

    The module reads two IDX files (images, labels), checks their headers and
    returns numpy arrays.  The embedding below follows the Python text line by
    line:

    - a gzip file object is a byte string together with a read offset;
    - the local variables that the [finally] blocks read ([n_images],
      [n_rows], [n_cols], [res]) live in an explicit frame, where a variable
      can be unbound;
    - statements run in a state-and-exception monad over that frame;
    - [try: ... finally: return e] discards a pending exception and
      evaluates [e]; an exception raised by [e] itself propagates, with the
      discarded one as its [__context__].

    Outside the embedding: the download of a missing file and the gzip
    decompression (the functions take the decompressed content of the file
    named by [src]), and requested counts below zero (counts are in [N]).
    [struct.unpack('I', _)] reads in the host's byte order; the host is
    little-endian, as the comment above the magic-number test says. *)

From Stdlib Require Import NArith Lia PrimFloat DecimalString.
From Stdlib.Strings Require Import Byte.
From stdpp Require Import base list strings.

Local Open Scope N_scope.

(** ** Python values and exceptions *)

(** The exceptions the module can raise.  [ValueError size shape] is numpy's
    "cannot reshape array of size [size] into shape [shape]"; [IndexError i m]
    is numpy's "index [i] is out of bounds for axis 0 with size [m]". *)
Inductive exn : Type :=
| Exception_ (msg : string)
| struct_error
| UnboundLocalError (var : string)
| TypeError
| ValueError (size : N) (newshape : N * N)
| IndexError (i : N) (size : N).

(** Result of running a statement or evaluating an expression. *)
Inductive outcome (A : Type) : Type :=
| Normal (a : A)
| Throw (e : exn).
Arguments Normal {A} a.
Arguments Throw {A} e.

(** Result of a call: a returned value, or an exception that left the
    function, with the exception that was pending when it was raised. *)
Inductive result (A : Type) : Type :=
| Returned (a : A)
| Raised (e : exn) (context : option exn).
Arguments Returned {A} a.
Arguments Raised {A} e context.

(** A two-dimensional [uint8] array: its shape and its buffer in C order. *)
Record ndarray : Type := mk_ndarray {
  shape : N * N;
  buffer : list byte
}.

(** The file object returned by [gzip.open]: decompressed content and the
    offset of the next byte to read. *)
Record gzfile : Type := mk_gzfile {
  content : list byte;
  offset : nat
}.

(** The frame of [loadImages] / [loadLabels].  [n_images] is a parameter and
    always bound: [None] is Python's [None].  The other variables are unbound
    ([None]) until assigned. *)
Record frame : Type := mk_frame {
  gz : gzfile;
  n_images : option N;
  n_rows : option N;
  n_cols : option N;
  res : option (list byte)
}.

(** ** The statement monad *)

Definition M (A : Type) : Type := frame -> outcome A * frame.

Definition ret {A} (a : A) : M A := fun f => (Normal a, f).

Definition bind {A B} (m : M A) (k : A -> M B) : M B :=
  fun f => match m f with
           | (Normal a, f') => k a f'
           | (Throw e, f') => (Throw e, f')
           end.

Definition raise {A} (e : exn) : M A := fun f => (Throw e, f).

#[global] Instance M_ret : MRet M := @ret.
#[global] Instance M_bind : MBind M := fun A B k m => bind m k.

(** [if c: raise e] *)
Definition raise_if (c : bool) (e : exn) : M unit :=
  if c then raise e else ret tt.

(** [gz.read(k)]: at most [k] bytes, fewer at the end of the content. *)
Definition gz_read (k : nat) : M (list byte) :=
  fun f =>
    let g := gz f in
    let b := take k (drop (offset g) (content g)) in
    (Normal b,
     mk_frame (mk_gzfile (content g) (offset g + length b))
              (n_images f) (n_rows f) (n_cols f) (res f)).

Definition set_n_images (v : N) : M unit :=
  fun f => (Normal tt, mk_frame (gz f) (Some v) (n_rows f) (n_cols f) (res f)).
Definition set_n_rows (v : N) : M unit :=
  fun f => (Normal tt, mk_frame (gz f) (n_images f) (Some v) (n_cols f) (res f)).
Definition set_n_cols (v : N) : M unit :=
  fun f => (Normal tt, mk_frame (gz f) (n_images f) (n_rows f) (Some v) (res f)).
Definition set_res (v : list byte) : M unit :=
  fun f => (Normal tt, mk_frame (gz f) (n_images f) (n_rows f) (n_cols f) (Some v)).

Definition get_n_images : M (option N) := fun f => (Normal (n_images f), f).

(** Reading a local variable: [UnboundLocalError] when it is not bound. *)
Definition load {A} (name : string) (field : frame -> option A) : M A :=
  fun f => match field f with
           | Some v => (Normal v, f)
           | None => (Throw (UnboundLocalError name), f)
           end.

(** An integer operand is required where [n_images] is used as a number. *)
Definition as_int (v : option N) : M N :=
  match v with
  | Some k => ret k
  | None => raise TypeError
  end.

(** ** [struct] and [numpy] *)

Definition u8 (b : byte) : N := Byte.to_N b.

(** Four bytes as an unsigned 32-bit integer, most significant byte first
    and least significant byte first; no value for any other length. *)
Definition be_u32 (b : list byte) : option N :=
  match b with
  | [b0; b1; b2; b3] =>
      Some (u8 b0 * 16777216 + u8 b1 * 65536 + u8 b2 * 256 + u8 b3)
  | _ => None
  end.

Definition le_u32 (b : list byte) : option N :=
  match b with
  | [b0; b1; b2; b3] =>
      Some (u8 b0 + u8 b1 * 256 + u8 b2 * 65536 + u8 b3 * 16777216)
  | _ => None
  end.

(** [struct.unpack('>I', b)[0]]; [struct.error] unless [b] has four bytes. *)
Definition unpack_be (b : list byte) : M N :=
  match be_u32 b with
  | Some v => ret v
  | None => raise struct_error
  end.

(** [struct.unpack('I', b)[0]] on the little-endian host. *)
Definition unpack_native (b : list byte) : M N :=
  match le_u32 b with
  | Some v => ret v
  | None => raise struct_error
  end.

(** [np.frombuffer(b, dtype=np.uint8)]: one element per byte. *)
Definition frombuffer (b : list byte) : list byte := b.

(** [a.reshape((r, c))] of a one-dimensional array. *)
Definition reshape (a : list byte) (r c : N) : M ndarray :=
  if N.of_nat (length a) =? r * c
  then ret (mk_ndarray (r, c) a)
  else raise (ValueError (N.of_nat (length a)) (r, c)).

(** The rows [a[0], a[1], ...] of a two-dimensional array, which is what
    iterating over it yields. *)
Fixpoint rows_from (r c : nat) (d : list byte) : list (list byte) :=
  match r with
  | O => []
  | S r' => take c d :: rows_from r' c (drop c d)
  end.

Definition rows (a : ndarray) : list (list byte) :=
  rows_from (N.to_nat (fst (shape a))) (N.to_nat (snd (shape a))) (buffer a).

(** ['{0}'.format(k)] for an integer [k]. *)
Definition format_int (k : N) : string :=
  NilZero.string_of_uint (N.to_uint k).

(** ** [try: body finally: return e] *)

Definition try_finally_return {A} (body : M unit) (e : M A)
  : frame -> result A * frame :=
  fun f =>
    let '(o, f1) := body f in
    let pending := match o with Normal _ => None | Throw x => Some x end in
    match e f1 with
    | (Normal v, f2) => (Returned v, f2)
    | (Throw x, f2) => (Raised x pending, f2)
    end.

(** ** [loadImages] *)

Definition invalid_magic : exn :=
  Exception_ "Invalid file: unexpected magic number.".

Definition unable_images (k : N) : exn :=
  Exception_ ("Unable to read " +:+ format_int k +:+ " entries from data file.").

Definition invalid_dims : exn :=
  Exception_ "Invalid file: expected 28 rows & cols per img".

(** Lines 62-91, the body of the [try]. *)
Definition loadImages_try : M unit :=
  b ← gz_read 4;
  n ← unpack_native b;
  raise_if (negb (n =? 0x03080000)) invalid_magic;;
  b ← gz_read 4;
  n ← unpack_be b;
  ni ← get_n_images;
  match ni with
  | None => set_n_images n
  | Some k => raise_if (n <? k) (unable_images k)
  end;;
  b ← gz_read 4;
  r ← unpack_be b;
  set_n_rows r;;
  b ← gz_read 4;
  c ← unpack_be b;
  set_n_cols c;;
  raise_if (negb (r =? 28) || negb (c =? 28)) invalid_dims;;
  ni ← get_n_images;
  k ← as_int ni;
  r ← load "n_rows" n_rows;
  c ← load "n_cols" n_cols;
  b ← gz_read (N.to_nat (k * r * c));
  set_res (frombuffer b).

(** Line 95, the [return] of the [finally]. *)
Definition loadImages_finally : M ndarray :=
  a ← load "res" res;
  ni ← get_n_images;
  r ← load "n_rows" n_rows;
  c ← load "n_cols" n_cols;
  k ← as_int ni;
  reshape a k (r * c).

Definition open_frame (src : list byte) (count : option N) : frame :=
  mk_frame (mk_gzfile src 0) count None None None.

(** The call with the frame it ends in (the file offset tells how much was
    read). *)
Definition loadImages_run (src : list byte) (count : option N)
  : result ndarray * frame :=
  try_finally_return loadImages_try loadImages_finally (open_frame src count).

Definition loadImages (src : list byte) (count : option N) : result ndarray :=
  fst (loadImages_run src count).

(** ** [loadLabels] *)

Definition unable_labels (k : N) : exn :=
  Exception_ ("Unable to read " +:+ format_int k +:+ " entires from label file.").

(** Lines 111-125, the body of the [try]. *)
Definition loadLabels_try : M unit :=
  b ← gz_read 4;
  n ← unpack_native b;
  raise_if (negb (n =? 0x01080000)) invalid_magic;;
  b ← gz_read 4;
  n ← unpack_be b;
  ni ← get_n_images;
  match ni with
  | None => set_n_images n
  | Some k => raise_if (n <? k) (unable_labels k)
  end;;
  ni ← get_n_images;
  k ← as_int ni;
  b ← gz_read (N.to_nat k);
  set_res (frombuffer b).

(** Line 128, the [return] of the [finally]. *)
Definition loadLabels_finally : M ndarray :=
  a ← load "res" res;
  ni ← get_n_images;
  k ← as_int ni;
  reshape a k 1.

Definition loadLabels_run (src : list byte) (count : option N)
  : result ndarray * frame :=
  try_finally_return loadLabels_try loadLabels_finally (open_frame src count).

Definition loadLabels (src : list byte) (count : option N) : result ndarray :=
  fst (loadLabels_run src count).

(** ** [vectorized_digit] *)

(** What [e[j]] is indexed with: a Python integer, or an integer array (the
    one-element [uint8] row that [mnist_load] passes). *)
Inductive index : Type :=
| Int (j : N)
| IntArray (js : list N).

(** [np.zeros((10, 1))]: ten rows of one [float64] each. *)
Definition zeros10 : list float := replicate 10 0.0%float.

(** [e[j] = v] on the first axis: every index is checked against the size
    before anything is stored. *)
Definition setitem (e : list float) (j : index) (v : float)
  : result (list float) :=
  let size := N.of_nat (length e) in
  match j with
  | Int i =>
      if i <? size then Returned (<[N.to_nat i := v]> e)
      else Raised (IndexError i size) None
  | IntArray js =>
      match list_find (fun i => size <= i) js with
      | Some (_, i) => Raised (IndexError i size) None
      | None => Returned (foldl (fun a i => <[N.to_nat i := v]> a) e js)
      end
  end.

Definition vectorized_digit (j : index) : result (list float) :=
  setitem zeros10 j 1.0%float.

(** ** [mnist_load] *)

#[global] Instance result_ret : MRet result := @Returned.
#[global] Instance result_bind : MBind result := fun A B k r =>
  match r with
  | Returned a => k a
  | Raised e c => Raised e c
  end.

(** Lines 139-142: the loop over the rows of [labels], appending to
    [vectorized_labels]. *)
Fixpoint vectorize_loop (labels : list (list byte))
    (vectorized_labels : list (list float)) : result (list (list float)) :=
  match labels with
  | [] => Returned vectorized_labels
  | label :: rest =>
      vd ← vectorized_digit (IntArray (u8 <$> label));
      vectorize_loop rest (vectorized_labels ++ [vd])
  end.

Definition mnist_load (imageSrc labelsSrc : list byte) (count : option N)
  : result (ndarray * list (list float)) :=
  images ← loadImages imageSrc count;
  labels ← loadLabels labelsSrc count;
  vectorized_labels ← vectorize_loop (rows labels) [];
  Returned (images, vectorized_labels).

(** ** Header fields of a stream *)

(** The big-endian 32-bit field at byte offset [off], when the stream has
    four bytes there. *)
Definition field (s : list byte) (off : nat) : option N :=
  be_u32 (take 4 (drop off s)).
Arguments field : simpl never.

(** An image stream starts with the magic number [0x00000803 = 2051], the
    count, and 28 rows and columns; a label stream with the magic number
    [0x00000801 = 2049] and the count. *)
Definition image_header (s : list byte) (c : N) : Prop :=
  field s 0 = Some 2051 ∧ field s 4 = Some c ∧
  field s 8 = Some 28 ∧ field s 12 = Some 28.

Definition label_header (s : list byte) (c : N) : Prop :=
  field s 0 = Some 2049 ∧ field s 4 = Some c.

(** The count that is read: the caller's, or the declared one. *)
Definition requested (count : option N) (declared : N) : N :=
  match count with
  | Some k => k
  | None => declared
  end.

(** The frame after [k] more bytes were read. *)
Definition advance (k : nat) (f : frame) : frame :=
  mk_frame (mk_gzfile (content (gz f)) (offset (gz f) + k))
           (n_images f) (n_rows f) (n_cols f) (res f).

(** ** Failures *)

Definition unbound_res : exn := UnboundLocalError "res".

(** A call that failed, with [x] raised in it: [x] is the exception that
    left the call, or the one that was pending when that one was raised. *)
Definition fails_on {A} (x : exn) (r : result A) : Prop :=
  ∃ e ctx, r = Raised e ctx ∧ (e = x ∨ ctx = Some x).

(** The reasons for which a decode of an image stream fails: wrong magic
    number, rows or columns other than 28, a requested count above the
    declared one, fewer data bytes than the requested records need. *)
Inductive image_failure (s : list byte) (count : option N) : Prop :=
| image_InvalidFormat :
    field s 0 ≠ Some 2051 → image_failure s count
| image_UnsupportedDimensions :
    field s 8 ≠ Some 28 ∨ field s 12 ≠ Some 28 → image_failure s count
| image_InsufficientData c k :
    field s 4 = Some c → count = Some k → c < k → image_failure s count
| image_TruncatedStream c :
    field s 4 = Some c →
    (length s < 16 + N.to_nat (requested count c * 784))%nat →
    image_failure s count.

(** The same for a label stream, which has no dimension fields. *)
Inductive label_failure (s : list byte) (count : option N) : Prop :=
| label_InvalidFormat :
    field s 0 ≠ Some 2049 → label_failure s count
| label_InsufficientData c k :
    field s 4 = Some c → count = Some k → c < k → label_failure s count
| label_TruncatedStream c :
    field s 4 = Some c →
    (length s < 8 + N.to_nat (requested count c))%nat →
    label_failure s count.

(** ** One-hot vectors *)

(** Ten entries, a [1.0] at index [j], [0.0] elsewhere, and one entry in all
    that equals [1.0]. *)
Definition is_one_hot (j : nat) (v : list float) : Prop :=
  length v = 10%nat ∧
  v !! j = Some 1.0%float ∧
  (∀ i, (i < 10)%nat → i ≠ j → v !! i = Some 0.0%float) ∧
  length (List.filter (PrimFloat.eqb 1.0) v) = 1%nat.

Definition one_hot_3 : list float :=
  [0.0; 0.0; 0.0; 1.0; 0.0; 0.0; 0.0; 0.0; 0.0; 0.0]%float.
Definition one_hot_7 : list float :=
  [0.0; 0.0; 0.0; 0.0; 0.0; 0.0; 0.0; 1.0; 0.0; 0.0]%float.

(** ** The value that [mnist_load] hands back *)

(** The Python objects that occur in the result of [mnist_load]: a
    two-dimensional [uint8] array, one of its rows, a [(10, 1)] array of
    [float64], a list and a tuple. *)
#[warnings="-register-all"] Inductive pyval : Type :=
| PyArray (a : ndarray)
| PyRow (r : list byte)
| PyColumn (v : list float)
| PyList (l : list pyval)
| PyTuple (l : list pyval).

(** Line 143, [return images, vectorized_labels]: a tuple of the array and
    of the list of vectors. *)
Definition mnist_load_value (imageSrc labelsSrc : list byte)
    (count : option N) : result pyval :=
  r ← mnist_load imageSrc labelsSrc count;
  Returned (PyTuple [PyArray r.1; PyList (PyColumn <$> r.2)]).

(** The Dataset as the specification words it, for comparison with
    [mnist_load_value]: the sequence of (image, label vector) pairs that
    zipping the rows of the array with the vectors gives. *)
Definition zipped_dataset (images : ndarray)
    (vectorized_labels : list (list float)) : pyval :=
  PyList (zip_with (λ r v, PyTuple [PyRow r; PyColumn v])
                   (rows images) vectorized_labels).

(** ** Sample streams *)

(** Headers with one-byte counts and dimensions. *)
Definition img_header (count r c : byte) : list byte :=
  [x00; x00; x08; x03; x00; x00; x00; count;
   x00; x00; x00; r; x00; x00; x00; c]%byte.

Definition lbl_header (count : byte) : list byte :=
  [x00; x00; x08; x01; x00; x00; x00; count]%byte.

(** Two images of 28 by 28, and their labels 3 and 7. *)
Definition image_sample : list byte :=
  img_header x02 x1c x1c ++ replicate 784 x05%byte ++ replicate 784 x09%byte.

Definition label_sample : list byte := lbl_header x02 ++ [x03; x07]%byte.

(** Two records declared, fewer bytes than two records present. *)
Definition image_truncated : list byte :=
  img_header x02 x1c x1c ++ replicate 1000 x05%byte.

Definition label_truncated : list byte := lbl_header x02 ++ [x03]%byte.

(** The samples with the first byte of the magic number overwritten. *)
Definition image_bad_magic : list byte := xff%byte :: drop 1 image_sample.
Definition image_bad_magic' : list byte := x7f%byte :: drop 1 image_sample.
Definition label_bad_magic : list byte := xff%byte :: drop 1 label_sample.

(** Two labels, the second one out of range. *)
Definition label_out_of_range : list byte :=
  lbl_header x02 ++ [x03; x0a]%byte.

(** One image declared. *)
Definition image_count_1 : list byte :=
  img_header x01 x1c x1c ++ replicate 784 x05%byte.

(** One image of 27 rows declared. *)
Definition image_27_rows : list byte :=
  img_header x01 x1b x1c ++ replicate 756 x05%byte.

(** * Properties *)

(** ** Byte order *)

Lemma u8_lt (b : byte) : u8 b < 256.
Proof. unfold u8. pose proof (Byte.to_N_bounded b). lia. Qed.

Lemma be_u32_length b v : be_u32 b = Some v → length b = 4%nat.
Proof. by destruct b as [|? [|? [|? [|? [|? ?]]]]]. Qed.

Lemma be_u32_None b : be_u32 b = None → length b ≠ 4%nat.
Proof. by destruct b as [|? [|? [|? [|? [|? ?]]]]]. Qed.

(** The host reads the image magic [00 00 08 03] as [0x03080000], the label
    magic [00 00 08 01] as [0x01080000]. *)
Lemma le_be_magic (b : list byte) (x le be : N) :
  x < 256 → le = x * 16777216 + 524288 → be = 2048 + x →
  le_u32 b = Some le ↔ be_u32 b = Some be.
Proof.
  intros Hx -> ->.
  destruct b as [|b0 [|b1 [|b2 [|b3 [|? ?]]]]]; cbn; try (split; discriminate).
  pose proof (u8_lt b0). pose proof (u8_lt b1).
  pose proof (u8_lt b2). pose proof (u8_lt b3).
  split; intros [= E]; f_equal; lia.
Qed.

(** ** Stepping through the reads *)

Section steps.
Context {A : Type}.
Implicit Types (f : frame) (k : M A).

Lemma step_raise_if (c : bool) e k f :
  (raise_if c e;; k) f = if c then (Throw e, f) else k f.
Proof. by destruct c. Qed.

Lemma step_read_be (k : N → M A) f :
  (b ← gz_read 4; n ← unpack_be b; k n) f =
  match field (content (gz f)) (offset (gz f)) with
  | Some v => k v (advance 4 f)
  | None =>
      (Throw struct_error,
       advance (length (take 4 (drop (offset (gz f)) (content (gz f))))) f)
  end.
Proof.
  unfold field, mbind, M_bind, bind, gz_read, unpack_be. cbn.
  destruct (be_u32 _) as [v|] eqn:E; [|done].
  by rewrite (be_u32_length _ _ E).
Qed.

Lemma step_read_magic (x le be : N) k f :
  x < 256 → le = x * 16777216 + 524288 → be = 2048 + x →
  (b ← gz_read 4; n ← unpack_native b;
   raise_if (negb (n =? le)) invalid_magic;; k) f =
  match field (content (gz f)) (offset (gz f)) with
  | Some v =>
      if v =? be then k (advance 4 f) else (Throw invalid_magic, advance 4 f)
  | None =>
      (Throw struct_error,
       advance (length (take 4 (drop (offset (gz f)) (content (gz f))))) f)
  end.
Proof.
  intros Hx Hle Hbe.
  pose proof (le_be_magic (take 4 (drop (offset (gz f)) (content (gz f))))
                x le be Hx Hle Hbe) as Hm.
  unfold field, mbind, M_bind, bind, gz_read, unpack_native in *. cbn.
  destruct (be_u32 _) as [v|] eqn:E.
  - rewrite (be_u32_length _ _ E).
    destruct (le_u32 _) as [w|] eqn:E'.
    + unfold raise_if, advance. cbn.
      destruct (N.eqb_spec w le) as [->|Hw], (N.eqb_spec v be) as [->|Hv];
        cbn; try done.
      * destruct Hm as [Hm _]. specialize (Hm eq_refl). congruence.
      * destruct Hm as [_ Hm]. specialize (Hm eq_refl). congruence.
    + exfalso. clear -E E'.
      by destruct (take 4 _) as [|? [|? [|? [|? [|? ?]]]]].
  - destruct (le_u32 _) as [w|] eqn:E'; [|done].
    exfalso. clear -E E'.
    by destruct (take 4 _) as [|? [|? [|? [|? [|? ?]]]]].
Qed.

Lemma step_get_n_images (k : option N → M A) f :
  (ni ← get_n_images; k ni) f = k (n_images f) f.
Proof. done. Qed.

Lemma step_set_n_images v k f :
  (set_n_images v;; k) f =
  k (mk_frame (gz f) (Some v) (n_rows f) (n_cols f) (res f)).
Proof. done. Qed.

Lemma step_set_n_rows v k f :
  (set_n_rows v;; k) f =
  k (mk_frame (gz f) (n_images f) (Some v) (n_cols f) (res f)).
Proof. done. Qed.

Lemma step_set_n_cols v k f :
  (set_n_cols v;; k) f =
  k (mk_frame (gz f) (n_images f) (n_rows f) (Some v) (res f)).
Proof. done. Qed.

Lemma step_as_int (v : option N) (k : N → M A) f :
  (i ← as_int v; k i) f =
  match v with Some i => k i f | None => (Throw TypeError, f) end.
Proof. by destruct v. Qed.

Lemma step_load {B} name (field : frame → option B) (k : B → M A) f :
  (v ← load name field; k v) f =
  match field f with
  | Some v => k v f
  | None => (Throw (UnboundLocalError name), f)
  end.
Proof. unfold mbind, M_bind, bind, load. by destruct (field f). Qed.

Lemma step_gz_read n (k : list byte → M A) f :
  (b ← gz_read n; k b) f =
  let b := take n (drop (offset (gz f)) (content (gz f))) in
  k b (advance (length b) f).
Proof. done. Qed.
End steps.

Ltac run_steps :=
  repeat first
    [ rewrite (step_read_magic 3 _ 2051) by (try lia; reflexivity)
    | rewrite (step_read_magic 1 _ 2049) by (try lia; reflexivity)
    | rewrite step_read_be
    | rewrite step_raise_if
    | rewrite step_get_n_images
    | rewrite step_set_n_images
    | rewrite step_set_n_rows
    | rewrite step_set_n_cols
    | rewrite step_as_int
    | rewrite step_load
    | rewrite step_gz_read
    | match goal with
      | H : field ?s ?o = _ |- context [field ?s ?o] => rewrite H
      end
    | progress cbn [open_frame advance gz content offset n_images n_rows
                    n_cols res Nat.add] ].

Ltac start_images :=
  unfold loadImages_run, try_finally_return, loadImages_try.
Ltac start_labels :=
  unfold loadLabels_run, try_finally_return, loadLabels_try.

(** ** Outcomes of [loadImages], case by case *)

Lemma loadImages_run_short0 s count :
  field s 0 = None →
  loadImages_run s count =
  (Raised unbound_res (Some struct_error),
   mk_frame (mk_gzfile s (length (take 4 s))) count None None None).
Proof. intros H0. start_images. by run_steps. Qed.

Lemma loadImages_run_magic s count m :
  field s 0 = Some m → m ≠ 2051 →
  loadImages_run s count =
  (Raised unbound_res (Some invalid_magic),
   mk_frame (mk_gzfile s 4) count None None None).
Proof.
  intros H0 Hm. start_images. run_steps.
  by destruct (N.eqb_spec m 2051).
Qed.

Lemma loadImages_run_short4 s count :
  field s 0 = Some 2051 → field s 4 = None →
  loadImages_run s count =
  (Raised unbound_res (Some struct_error),
   mk_frame (mk_gzfile s (4 + length (take 4 (drop 4 s)))) count
            None None None).
Proof. intros H0 H4. start_images. by run_steps. Qed.

Lemma loadImages_run_count s k c :
  field s 0 = Some 2051 → field s 4 = Some c → c < k →
  loadImages_run s (Some k) =
  (Raised unbound_res (Some (unable_images k)),
   mk_frame (mk_gzfile s 8) (Some k) None None None).
Proof.
  intros H0 H4 Hk. start_images. run_steps.
  change (2051 =? 2051) with true. cbv iota. run_steps.
  by destruct (N.ltb_spec c k); [|lia].
Qed.

(** Past the count test ([requested count c ≤ c]) both ways of passing the
    count leave [n_images = requested count c]. *)
Ltac pass_count c :=
  run_steps; change (2051 =? 2051) with true; change (2049 =? 2049) with true;
  cbv iota;
  match goal with
  | count : option N |- _ =>
      destruct count as [?k|]; cbn [requested] in *; run_steps;
      [ destruct (N.ltb_spec c k); [lia|] | ]; run_steps
  end.

Lemma loadImages_run_short8 s count c :
  field s 0 = Some 2051 → field s 4 = Some c → requested count c ≤ c →
  field s 8 = None →
  loadImages_run s count =
  (Raised unbound_res (Some struct_error),
   mk_frame (mk_gzfile s (8 + length (take 4 (drop 8 s))))
            (Some (requested count c)) None None None).
Proof. intros H0 H4 Hn H8. start_images. by pass_count c. Qed.

Lemma loadImages_run_short12 s count c r :
  field s 0 = Some 2051 → field s 4 = Some c → requested count c ≤ c →
  field s 8 = Some r → field s 12 = None →
  loadImages_run s count =
  (Raised unbound_res (Some struct_error),
   mk_frame (mk_gzfile s (12 + length (take 4 (drop 12 s))))
            (Some (requested count c)) (Some r) None None).
Proof. intros H0 H4 Hn H8 H12. start_images. by pass_count c. Qed.

Lemma loadImages_run_dims s count c r q :
  field s 0 = Some 2051 → field s 4 = Some c → requested count c ≤ c →
  field s 8 = Some r → field s 12 = Some q → r ≠ 28 ∨ q ≠ 28 →
  loadImages_run s count =
  (Raised unbound_res (Some invalid_dims),
   mk_frame (mk_gzfile s 16) (Some (requested count c)) (Some r) (Some q) None).
Proof.
  intros H0 H4 Hn H8 H12 Hd. start_images.
  pass_count c;
    (destruct (N.eqb_spec r 28), (N.eqb_spec q 28); [lia|done..]).
Qed.

Lemma loadImages_run_data s count c :
  field s 0 = Some 2051 → field s 4 = Some c → requested count c ≤ c →
  field s 8 = Some 28 → field s 12 = Some 28 →
  let n := requested count c in
  let d := take (N.to_nat (n * 784)) (drop 16 s) in
  loadImages_run s count =
  (if N.of_nat (length d) =? n * 784
   then Returned (mk_ndarray (n, 784) d)
   else Raised (ValueError (N.of_nat (length d)) (n, 784)) None,
   mk_frame (mk_gzfile s (16 + length d)) (Some n) (Some 28) (Some 28) (Some d)).
Proof.
  intros H0 H4 Hn H8 H12 n d. start_images.
  pass_count c;
    change (negb (28 =? 28) || negb (28 =? 28)) with false; cbv iota;
    match goal with
    | |- context [N.to_nat (?x * 28 * 28)] =>
        replace (x * 28 * 28) with (x * 784) by lia
    end;
    subst n d; unfold set_res, frombuffer, loadImages_finally;
    run_steps; unfold reshape; change (28 * 28) with 784;
    by destruct (_ =? _).
Qed.

(** ** Outcomes of [loadLabels], case by case *)

Lemma loadLabels_run_short0 s count :
  field s 0 = None →
  loadLabels_run s count =
  (Raised unbound_res (Some struct_error),
   mk_frame (mk_gzfile s (length (take 4 s))) count None None None).
Proof. intros H0. start_labels. by run_steps. Qed.

Lemma loadLabels_run_magic s count m :
  field s 0 = Some m → m ≠ 2049 →
  loadLabels_run s count =
  (Raised unbound_res (Some invalid_magic),
   mk_frame (mk_gzfile s 4) count None None None).
Proof.
  intros H0 Hm. start_labels. run_steps.
  by destruct (N.eqb_spec m 2049).
Qed.

Lemma loadLabels_run_short4 s count :
  field s 0 = Some 2049 → field s 4 = None →
  loadLabels_run s count =
  (Raised unbound_res (Some struct_error),
   mk_frame (mk_gzfile s (4 + length (take 4 (drop 4 s)))) count
            None None None).
Proof. intros H0 H4. start_labels. by run_steps. Qed.

Lemma loadLabels_run_count s k c :
  field s 0 = Some 2049 → field s 4 = Some c → c < k →
  loadLabels_run s (Some k) =
  (Raised unbound_res (Some (unable_labels k)),
   mk_frame (mk_gzfile s 8) (Some k) None None None).
Proof.
  intros H0 H4 Hk. start_labels. run_steps.
  change (2049 =? 2049) with true. cbv iota. run_steps.
  by destruct (N.ltb_spec c k); [|lia].
Qed.

Lemma loadLabels_run_data s count c :
  field s 0 = Some 2049 → field s 4 = Some c → requested count c ≤ c →
  let n := requested count c in
  let d := take (N.to_nat n) (drop 8 s) in
  loadLabels_run s count =
  (if N.of_nat (length d) =? n * 1
   then Returned (mk_ndarray (n, 1) d)
   else Raised (ValueError (N.of_nat (length d)) (n, 1)) None,
   mk_frame (mk_gzfile s (8 + length d)) (Some n) None None (Some d)).
Proof.
  intros H0 H4 Hn n d. start_labels.
  pass_count c;
    subst n d; unfold set_res, frombuffer, loadLabels_finally;
    run_steps; unfold reshape;
    by destruct (_ =? _).
Qed.

(** ** Rows of an array *)

Lemma length_rows_from r c d : length (rows_from r c d) = r.
Proof. revert d. induction r as [|r IH]; intros d; cbn; [done|]. by rewrite IH. Qed.

Lemma lookup_rows_from r c d i :
  (i < r)%nat → rows_from r c d !! i = Some (take c (drop (i * c) d)).
Proof.
  revert d i. induction r as [|r IH]; intros d i Hi; [lia|].
  destruct i as [|i]; cbn [rows_from lookup list_lookup].
  - done.
  - change (rows_from r c (drop c d) !! i = Some (take c (drop (S i * c) d))).
    rewrite IH by lia. rewrite drop_drop.
    by replace (c + i * c)%nat with (S i * c)%nat by lia.
Qed.

(** ** Fields of a prefix *)

Lemma field_take s m off : (off + 4 ≤ m)%nat → field (take m s) off = field s off.
Proof.
  intros H. unfold field. f_equal.
  rewrite take_drop_commute, take_take.
  rewrite (take_drop_commute s 4 off). do 2 f_equal. lia.
Qed.

Lemma field_Some_length s off v : field s off = Some v → (off + 4 ≤ length s)%nat.
Proof.
  unfold field. intros H%be_u32_length.
  rewrite length_take, length_drop in H. lia.
Qed.

Lemma field_is_Some s off : (off + 4 ≤ length s)%nat → is_Some (field s off).
Proof.
  intros H. unfold field.
  assert (length (take 4 (drop off s)) = 4%nat) as Hl
    by (rewrite length_take, length_drop; lia).
  destruct (be_u32 _) eqn:E; [done|]. by apply be_u32_None in E.
Qed.

(** * Properties of the decoders *)

(** C1.  For an image stream with the image magic number, declared count [c],
    28 rows and 28 columns, a requested count [n ≤ c] and at least [n * 784]
    data bytes after the 16-byte header, [loadImages] returns an array with
    exactly [n] rows; row [i] has exactly 784 bytes and is the [i]-th
    784-byte chunk of the data section, in stream order. *)
Theorem loadImages_records (s : list byte) (c n : N) :
  field s 0 = Some 2051 → field s 4 = Some c →
  field s 8 = Some 28 → field s 12 = Some 28 →
  n ≤ c → (16 + N.to_nat n * 784 ≤ length s)%nat →
  ∃ a : ndarray,
    loadImages s (Some n) = Returned a ∧
    length (rows a) = N.to_nat n ∧
    ∀ i : nat, (i < N.to_nat n)%nat →
      rows a !! i = Some (take 784 (drop (16 + i * 784) s)) ∧
      length (take 784 (drop (16 + i * 784) s)) = 784%nat.
Proof.
  intros H0 H4 H8 H12 Hn Hlen.
  unfold loadImages.
  rewrite (loadImages_run_data s (Some n) c) by done.
  cbn [requested fst].
  assert (length (take (N.to_nat (n * 784)) (drop 16 s)) = N.to_nat (n * 784))
    as Hd by (rewrite length_take, length_drop; lia).
  rewrite Hd, N2Nat.id, N.eqb_refl.
  eexists. split; [done|]. unfold rows. cbn [shape buffer fst snd].
  split; [apply length_rows_from|].
  intros i Hi. split.
  - rewrite lookup_rows_from by done.
    change (N.to_nat 784) with 784%nat. f_equal.
    rewrite take_drop_commute, take_take, Nat.min_l by lia.
    by rewrite <-take_drop_commute, drop_drop.
  - rewrite length_take, length_drop. lia.
Qed.

Lemma loadImages_records_witness :
  ∃ a : ndarray,
    loadImages image_sample (Some 2) = Returned a ∧
    length (rows a) = N.to_nat 2 ∧
    ∀ i : nat, (i < N.to_nat 2)%nat →
      rows a !! i = Some (take 784 (drop (16 + i * 784) image_sample)) ∧
      length (take 784 (drop (16 + i * 784) image_sample)) = 784%nat.
Proof.
  apply (loadImages_records image_sample 2 2); reflexivity.
Defined.

(** C3.  For a label value [j] in [0, 9], [vectorized_digit] (called with the
    integer [j], or with the one-element row that [mnist_load] passes)
    returns ten entries with exactly one [1.0], at index [j], and [0.0]
    elsewhere; for [j > 9] it fails with the out-of-range error
    ([IndexError]: index [j] is out of bounds for size 10). *)
Theorem vectorized_digit_one_hot (j : N) :
  (j ≤ 9 →
   ∃ v, vectorized_digit (Int j) = Returned v ∧
        vectorized_digit (IntArray [j]) = Returned v ∧
        is_one_hot (N.to_nat j) v) ∧
  (9 < j →
   vectorized_digit (Int j) = Raised (IndexError j 10) None ∧
   vectorized_digit (IntArray [j]) = Raised (IndexError j 10) None).
Proof.
  split.
  - intros Hj.
    assert (j = 0 ∨ j = 1 ∨ j = 2 ∨ j = 3 ∨ j = 4 ∨
            j = 5 ∨ j = 6 ∨ j = 7 ∨ j = 8 ∨ j = 9) as Hc by lia.
    destruct Hc as [->|[->|[->|[->|[->|[->|[->|[->|[->| ->]]]]]]]]];
      (eexists; split; [reflexivity|]; split; [reflexivity|];
       repeat split; try reflexivity;
       intros i Hi Hne;
       do 10 (destruct i as [|i]; [first [reflexivity | by destruct Hne]|]);
       cbn in Hi; lia).
  - intros Hj. unfold vectorized_digit, setitem.
    change (N.of_nat (length zeros10)) with 10.
    split.
    + by destruct (N.ltb_spec j 10); [lia|].
    + cbn. case_decide; [done|lia].
Qed.

Lemma vectorized_digit_one_hot_witness :
  (∃ v, vectorized_digit (Int 7) = Returned v ∧
        vectorized_digit (IntArray [7]) = Returned v ∧
        is_one_hot (N.to_nat 7) v) ∧
  (vectorized_digit (Int 12) = Raised (IndexError 12 10) None ∧
   vectorized_digit (IntArray [12]) = Raised (IndexError 12 10) None).
Proof.
  split.
  - apply (proj1 (vectorized_digit_one_hot 7)). lia.
  - apply (proj2 (vectorized_digit_one_hot 12)). reflexivity.
Defined.

Lemma loadImages_data s count c :
  image_header s c → requested count c ≤ c →
  let n := requested count c in
  (16 + N.to_nat (n * 784) ≤ length s)%nat →
  loadImages s count =
  Returned (mk_ndarray (n, 784) (take (N.to_nat (n * 784)) (drop 16 s))).
Proof.
  intros (H0 & H4 & H8 & H12) Hn n Hlen. unfold loadImages.
  rewrite (loadImages_run_data s count c) by done. cbn [fst]. fold n.
  rewrite length_take, length_drop, Nat.min_l by lia.
  by rewrite N2Nat.id, N.eqb_refl.
Qed.

Lemma loadLabels_data s count c :
  label_header s c → requested count c ≤ c →
  let n := requested count c in
  (8 + N.to_nat n ≤ length s)%nat →
  loadLabels s count =
  Returned (mk_ndarray (n, 1) (take (N.to_nat n) (drop 8 s))).
Proof.
  intros (H0 & H4) Hn n Hlen. unfold loadLabels.
  rewrite (loadLabels_run_data s count c) by done. cbn [fst]. fold n.
  rewrite length_take, length_drop, Nat.min_l by lia.
  by rewrite N2Nat.id, N.mul_1_r, N.eqb_refl.
Qed.

(** C2, as stated, fails: for the image stream of two records and the label
    stream with labels 3 and 7, [mnist_load] with count 2 hands back the
    tuple of the whole array and of the list of vectors.  That value is not
    the zipped Dataset of these two outputs, and it is no sequence of
    records at all. *)
Lemma mnist_load_returns_a_pair_not_a_zip :
  let images :=
    mk_ndarray (2, 784) (replicate 784 x05 ++ replicate 784 x09)%byte in
  mnist_load_value image_sample label_sample (Some 2) =
    Returned (PyTuple [PyArray images;
                       PyList [PyColumn one_hot_3; PyColumn one_hot_7]]) ∧
  zipped_dataset images [one_hot_3; one_hot_7] =
    PyList [PyTuple [PyRow (replicate 784 x05%byte); PyColumn one_hot_3];
            PyTuple [PyRow (replicate 784 x09%byte); PyColumn one_hot_7]] ∧
  mnist_load_value image_sample label_sample (Some 2) ≠
    Returned (zipped_dataset images [one_hot_3; one_hot_7]) ∧
  (∀ records : list pyval,
     mnist_load_value image_sample label_sample (Some 2) ≠
       Returned (PyList records)).
Proof.
  intros images.
  assert (mnist_load_value image_sample label_sample (Some 2) =
          Returned (PyTuple [PyArray images;
                             PyList [PyColumn one_hot_3; PyColumn one_hot_7]]))
    as E by reflexivity.
  split; [done|]. split; [reflexivity|]. rewrite E.
  split; [|intros records]; discriminate.
Qed.

(** C2, amended.  End to end: an image stream with magic [0x00000803],
    count 2, 28 rows, 28 columns and 2 * 784 arbitrary pixel bytes, and a
    label stream with magic [0x00000801], count 2 and label bytes [3, 7].
    [mnist_load] with count 2 returns the two decoder outputs side by side,
    as a pair and not zipped: the array of the two image records and the
    list of the two one-hot vectors.  Both have length 2, the vector at
    position [i] is the one-hot vector of the label at position [i], and
    the second vector has its [1.0] at index 7. *)
Theorem mnist_load_scenario (px : list byte) :
  length px = 1568%nat →
  let imageSrc := img_header x02 x1c x1c ++ px in
  let labelsSrc := lbl_header x02 ++ [x03; x07]%byte in
  let images := mk_ndarray (2, 784) px in
  let labels := mk_ndarray (2, 1) [x03; x07]%byte in
  let vectorized_labels := [one_hot_3; one_hot_7] in
  mnist_load imageSrc labelsSrc (Some 2) =
    Returned (images, vectorized_labels) ∧
  mnist_load_value imageSrc labelsSrc (Some 2) =
    Returned (PyTuple [PyArray images;
                       PyList [PyColumn one_hot_3; PyColumn one_hot_7]]) ∧
  loadImages imageSrc (Some 2) = Returned images ∧
  loadLabels labelsSrc (Some 2) = Returned labels ∧
  rows images = [take 784 px; drop 784 px] ∧
  rows labels = [[x03]; [x07]]%byte ∧
  length (rows images) = 2%nat ∧ length vectorized_labels = 2%nat ∧
  vectorized_digit (IntArray [3]) = Returned one_hot_3 ∧
  vectorized_digit (IntArray [7]) = Returned one_hot_7 ∧
  vectorized_labels !! 1%nat = Some one_hot_7 ∧
  is_one_hot 7 one_hot_7.
Proof.
  intros Hpx imageSrc labelsSrc images labels vectorized_labels.
  assert (loadImages imageSrc (Some 2) = Returned images) as Hi.
  { rewrite (loadImages_data imageSrc (Some 2) 2).
    - cbn [requested]. do 2 f_equal. subst imageSrc images.
      change (N.to_nat (2 * 784)) with 1568%nat.
      change (drop 16 (img_header x02 x1c x1c ++ px)) with px.
      f_equal. apply take_ge. lia.
    - by repeat split.
    - done.
    - subst imageSrc. rewrite length_app, Hpx. reflexivity. }
  assert (loadLabels labelsSrc (Some 2) = Returned labels) as Hl
    by reflexivity.
  assert (rows images = [take 784 px; drop 784 px]) as Hr.
  { unfold rows. cbn [images shape buffer fst snd].
    change (N.to_nat 2) with 2%nat. change (N.to_nat 784) with 784%nat.
    cbn [rows_from]. do 2 f_equal. apply take_ge. rewrite length_drop. lia. }
  assert (mnist_load imageSrc labelsSrc (Some 2) =
          Returned (images, vectorized_labels)) as Hm
    by (unfold mnist_load; rewrite Hi, Hl; reflexivity).
  split; [done|]. split; [by unfold mnist_load_value; rewrite Hm|].
  split; [done|]. split; [done|]. split; [done|]. split; [reflexivity|].
  split; [by rewrite Hr|]. split; [reflexivity|]. split; [reflexivity|].
  split; [reflexivity|]. split; [reflexivity|].
  repeat split; try reflexivity.
  intros i Hlt Hne.
  do 10 (destruct i as [|i]; [first [reflexivity | by destruct Hne]|]).
  cbn in Hlt. lia.
Qed.

Lemma mnist_load_scenario_witness :
  let px := (replicate 784 x05 ++ replicate 784 x09)%byte in
  let images := mk_ndarray (2, 784) px in
  let labels := mk_ndarray (2, 1) [x03; x07]%byte in
  let vectorized_labels := [one_hot_3; one_hot_7] in
  mnist_load image_sample label_sample (Some 2) =
    Returned (images, vectorized_labels) ∧
  mnist_load_value image_sample label_sample (Some 2) =
    Returned (PyTuple [PyArray images;
                       PyList [PyColumn one_hot_3; PyColumn one_hot_7]]) ∧
  loadImages image_sample (Some 2) = Returned images ∧
  loadLabels label_sample (Some 2) = Returned labels ∧
  rows images = [take 784 px; drop 784 px] ∧
  rows labels = [[x03]; [x07]]%byte ∧
  length (rows images) = 2%nat ∧ length vectorized_labels = 2%nat ∧
  vectorized_digit (IntArray [3]) = Returned one_hot_3 ∧
  vectorized_digit (IntArray [7]) = Returned one_hot_7 ∧
  vectorized_labels !! 1%nat = Some one_hot_7 ∧
  is_one_hot 7 one_hot_7.
Proof.
  apply (mnist_load_scenario (replicate 784 x05 ++ replicate 784 x09)%byte).
  reflexivity.
Defined.

(** C9.  With a requested count of 0, [mnist_load] on an image stream with a
    valid header (image magic, 28 by 28) and a label stream with a valid
    header (label magic) returns without error, and the result is empty: an
    array with no rows and no label vector. *)
Theorem mnist_load_zero (imageSrc labelsSrc : list byte) (c c' : N) :
  image_header imageSrc c → label_header labelsSrc c' →
  mnist_load imageSrc labelsSrc (Some 0) =
    Returned (mk_ndarray (0, 784) [], []) ∧
  rows (mk_ndarray (0, 784) []) = [].
Proof.
  intros Hi Hl. split; [|done].
  pose proof (field_Some_length _ _ _ (proj2 (proj2 (proj2 Hi)))).
  pose proof (field_Some_length _ _ _ (proj2 Hl)).
  unfold mnist_load.
  rewrite (loadImages_data imageSrc (Some 0) c), (loadLabels_data labelsSrc (Some 0) c');
    cbn [requested]; try done; try lia.
  all: cbn; lia.
Qed.

Lemma mnist_load_zero_witness :
  mnist_load image_sample label_sample (Some 0) =
    Returned (mk_ndarray (0, 784) [], []) ∧
  rows (mk_ndarray (0, 784) []) = [].
Proof.
  apply (mnist_load_zero image_sample label_sample 2 2);
    repeat split; reflexivity.
Defined.

(** ** A returned array is complete *)

Lemma loadImages_Returned s count a :
  loadImages s count = Returned a →
  ∃ c, image_header s c ∧ requested count c ≤ c ∧
       (16 + N.to_nat (requested count c * 784) ≤ length s)%nat ∧
       a = mk_ndarray (requested count c, 784)
             (take (N.to_nat (requested count c * 784)) (drop 16 s)).
Proof.
  unfold loadImages. intros Ha.
  destruct (field s 0) as [m|] eqn:H0;
    [|by rewrite loadImages_run_short0 in Ha].
  destruct (decide (m = 2051)) as [->|Hm];
    [|by rewrite (loadImages_run_magic s count m) in Ha].
  destruct (field s 4) as [c|] eqn:H4;
    [|by rewrite loadImages_run_short4 in Ha].
  destruct (decide (requested count c ≤ c)) as [Hn|Hn]; cycle 1.
  { destruct count as [k|]; cbn [requested] in Hn; [|lia].
    rewrite (loadImages_run_count s k c) in Ha by (done || lia). done. }
  destruct (field s 8) as [r|] eqn:H8;
    [|by rewrite (loadImages_run_short8 s count c) in Ha].
  destruct (field s 12) as [q|] eqn:H12;
    [|by rewrite (loadImages_run_short12 s count c r) in Ha].
  destruct (decide (r = 28)) as [->|Hr]; cycle 1.
  { rewrite (loadImages_run_dims s count c r q) in Ha by (done || by left).
    done. }
  destruct (decide (q = 28)) as [->|Hq]; cycle 1.
  { rewrite (loadImages_run_dims s count c 28 q) in Ha by (done || by right).
    done. }
  rewrite (loadImages_run_data s count c) in Ha by done. cbn [fst] in Ha.
  pose proof (field_Some_length _ _ _ H12) as Hlen.
  destruct (N.eqb_spec
              (N.of_nat (length (take (N.to_nat (requested count c * 784))
                                      (drop 16 s))))
              (requested count c * 784)) as [E|E]; [|done].
  injection Ha as <-. exists c. repeat split; try done.
  rewrite length_take, length_drop in E. lia.
Qed.

Lemma loadLabels_Returned s count a :
  loadLabels s count = Returned a →
  ∃ c, label_header s c ∧ requested count c ≤ c ∧
       (8 + N.to_nat (requested count c) ≤ length s)%nat ∧
       a = mk_ndarray (requested count c, 1)
             (take (N.to_nat (requested count c)) (drop 8 s)).
Proof.
  unfold loadLabels. intros Ha.
  destruct (field s 0) as [m|] eqn:H0;
    [|by rewrite loadLabels_run_short0 in Ha].
  destruct (decide (m = 2049)) as [->|Hm];
    [|by rewrite (loadLabels_run_magic s count m) in Ha].
  destruct (field s 4) as [c|] eqn:H4;
    [|by rewrite loadLabels_run_short4 in Ha].
  destruct (decide (requested count c ≤ c)) as [Hn|Hn]; cycle 1.
  { destruct count as [k|]; cbn [requested] in Hn; [|lia].
    rewrite (loadLabels_run_count s k c) in Ha by (done || lia). done. }
  rewrite (loadLabels_run_data s count c) in Ha by done. cbn [fst] in Ha.
  pose proof (field_Some_length _ _ _ H4) as Hlen.
  destruct (N.eqb_spec
              (N.of_nat (length (take (N.to_nat (requested count c))
                                      (drop 8 s))))
              (requested count c * 1)) as [E|E]; [|done].
  injection Ha as <-. exists c. repeat split; try done.
  rewrite length_take, length_drop in E. lia.
Qed.

(** C7.  For an image stream with a valid header whose data section has
    fewer than [requestedCount * 784] bytes, [loadImages] fails: the short
    read cannot be reshaped, and the error ([ValueError]) reports the number
    of bytes that were there against the shape asked for; likewise
    [loadLabels] when fewer than [requestedCount] label bytes remain.  When a
    decoder returns, it has read exactly the header and
    [requestedCount * 784] (for labels: [requestedCount]) data bytes. *)
Theorem truncated_stream (s t : list byte) (count count' : option N)
    (c c' : N) :
  image_header s c → requested count c ≤ c →
  label_header t c' → requested count' c' ≤ c' →
  let n := requested count c in
  let n' := requested count' c' in
  ((length s < 16 + N.to_nat (n * 784))%nat →
   loadImages s count =
     Raised (ValueError (N.of_nat (length s - 16)) (n, 784)) None) ∧
  ((length t < 8 + N.to_nat n')%nat →
   loadLabels t count' =
     Raised (ValueError (N.of_nat (length t - 8)) (n', 1)) None) ∧
  (∀ a f, loadImages_run s count = (Returned a, f) →
     offset (gz f) = (16 + N.to_nat (n * 784))%nat ∧
     buffer a = take (N.to_nat (n * 784)) (drop 16 s) ∧
     length (buffer a) = N.to_nat (n * 784)) ∧
  (∀ a f, loadLabels_run t count' = (Returned a, f) →
     offset (gz f) = (8 + N.to_nat n')%nat ∧
     buffer a = take (N.to_nat n') (drop 8 t) ∧
     length (buffer a) = N.to_nat n').
Proof.
  intros (H0 & H4 & H8 & H12) Hn (L0 & L4) Hn' n n'.
  pose proof (field_Some_length _ _ _ H12) as Hs.
  pose proof (field_Some_length _ _ _ L4) as Ht.
  repeat split.
  - intros Hlt. unfold loadImages.
    rewrite (loadImages_run_data s count c) by done. cbn [fst]. fold n.
    rewrite length_take, length_drop, Nat.min_r by lia.
    by destruct (N.eqb_spec (N.of_nat (length s - 16)) (n * 784)); [lia|].
  - intros Hlt. unfold loadLabels.
    rewrite (loadLabels_run_data t count' c') by done. cbn [fst]. fold n'.
    rewrite length_take, length_drop, Nat.min_r by lia.
    by destruct (N.eqb_spec (N.of_nat (length t - 8)) (n' * 1)); [lia|].
  - rewrite (loadImages_run_data s count c) in H by done. fold n in H.
    destruct (N.eqb_spec
                (N.of_nat (length (take (N.to_nat (n * 784)) (drop 16 s))))
                (n * 784)) as [E|E]; [|done].
    injection H as <- <-. cbn [gz offset]. lia.
  - rewrite (loadImages_run_data s count c) in H by done. fold n in H.
    destruct (_ =? _); [|done]. by injection H as <- <-.
  - rewrite (loadImages_run_data s count c) in H by done. fold n in H.
    destruct (N.eqb_spec
                (N.of_nat (length (take (N.to_nat (n * 784)) (drop 16 s))))
                (n * 784)) as [E|E]; [|done].
    injection H as <- <-. cbn [buffer]. lia.
  - rewrite (loadLabels_run_data t count' c') in H by done. fold n' in H.
    destruct (N.eqb_spec
                (N.of_nat (length (take (N.to_nat n') (drop 8 t))))
                (n' * 1)) as [E|E]; [|done].
    injection H as <- <-. cbn [gz offset]. lia.
  - rewrite (loadLabels_run_data t count' c') in H by done. fold n' in H.
    destruct (_ =? _); [|done]. by injection H as <- <-.
  - rewrite (loadLabels_run_data t count' c') in H by done. fold n' in H.
    destruct (N.eqb_spec
                (N.of_nat (length (take (N.to_nat n') (drop 8 t))))
                (n' * 1)) as [E|E]; [|done].
    injection H as <- <-. cbn [buffer]. lia.
Qed.

Lemma truncated_stream_witness :
  loadImages image_truncated (Some 2) =
    Raised (ValueError 1000 (2, 784)) None ∧
  loadLabels label_truncated None = Raised (ValueError 1 (2, 1)) None ∧
  (∀ a f, loadImages_run image_sample (Some 1) = (Returned a, f) →
     offset (gz f) = 800%nat) ∧
  (∀ a f, loadLabels_run label_sample None = (Returned a, f) →
     offset (gz f) = 10%nat).
Proof.
  pose proof (truncated_stream image_truncated label_truncated (Some 2) None
                2 2) as (Hi & Hl & _).
  { repeat split; reflexivity. } { reflexivity. }
  { repeat split; reflexivity. } { reflexivity. }
  pose proof (truncated_stream image_sample label_sample (Some 1) None
                2 2) as (_ & _ & Hi' & Hl').
  { repeat split; reflexivity. } { cbn; lia. }
  { repeat split; reflexivity. } { reflexivity. }
  split; [apply Hi; cbn; lia|]. split; [apply Hl; cbn; lia|].
  split; intros a f H; [apply (Hi' a f H) | apply (Hl' a f H)].
Defined.

(** C8.  A decode that fails for one of the reasons above returns no value:
    the call of [loadImages], and of [loadLabels], ends in an exception, so
    no partial, truncated or unassigned array reaches the caller. *)
Theorem failed_decode_returns_nothing (s : list byte) (count : option N) :
  (image_failure s count → ∃ e ctx, loadImages s count = Raised e ctx) ∧
  (label_failure s count → ∃ e ctx, loadLabels s count = Raised e ctx).
Proof.
  split; intros Hf.
  - destruct (loadImages s count) as [a|e ctx] eqn:E; [|by eauto].
    exfalso. apply loadImages_Returned in E
      as (c & (H0 & H4 & H8 & H12) & Hn & Hlen & _).
    destruct Hf as [Hm|[Hd|Hd]|c' k H4' -> Hk|c' H4' Hlt]; try done.
    + rewrite H4 in H4'. injection H4' as <-. cbn [requested] in Hn. lia.
    + rewrite H4 in H4'. injection H4' as <-. lia.
  - destruct (loadLabels s count) as [a|e ctx] eqn:E; [|by eauto].
    exfalso. apply loadLabels_Returned in E
      as (c & (H0 & H4) & Hn & Hlen & _).
    destruct Hf as [Hm|c' k H4' -> Hk|c' H4' Hlt]; try done.
    + rewrite H4 in H4'. injection H4' as <-. cbn [requested] in Hn. lia.
    + rewrite H4 in H4'. injection H4' as <-. lia.
Qed.

Lemma failed_decode_returns_nothing_witness :
  (∃ e ctx, loadImages image_27_rows None = Raised e ctx) ∧
  (∃ e ctx, loadLabels label_truncated (Some 2) = Raised e ctx).
Proof.
  split.
  - apply (proj1 (failed_decode_returns_nothing image_27_rows None)).
    apply image_UnsupportedDimensions. left. discriminate.
  - apply (proj2 (failed_decode_returns_nothing label_truncated (Some 2))).
    apply (label_TruncatedStream _ _ 2); [reflexivity|cbn; lia].
Defined.

(** ** Results depend on the bytes read only *)

Lemma loadImages_take s n :
  loadImages (take (16 + N.to_nat n * 784) s) (Some n) = loadImages s (Some n).
Proof.
  set (m := (16 + N.to_nat n * 784)%nat).
  destruct (decide (length s ≤ m)%nat) as [Hle|Hgt];
    [by rewrite take_ge|].
  assert (∀ off, (off + 4 ≤ 16)%nat → field (take m s) off = field s off)
    as Hf by (intros; apply field_take; lia).
  destruct (field_is_Some s 0) as [m0 H0]; [lia|].
  destruct (field_is_Some s 4) as [c H4]; [lia|].
  destruct (field_is_Some s 8) as [r H8]; [lia|].
  destruct (field_is_Some s 12) as [q H12]; [lia|].
  pose proof (Hf 0%nat ltac:(lia)) as T0. rewrite H0 in T0.
  pose proof (Hf 4%nat ltac:(lia)) as T4. rewrite H4 in T4.
  pose proof (Hf 8%nat ltac:(lia)) as T8. rewrite H8 in T8.
  pose proof (Hf 12%nat ltac:(lia)) as T12. rewrite H12 in T12.
  unfold loadImages.
  destruct (decide (m0 = 2051)) as [->|Hm];
    [|by rewrite !(loadImages_run_magic _ (Some n) m0)].
  destruct (decide (n ≤ c)) as [Hn|Hn];
    [|by rewrite !(loadImages_run_count _ n c) by (done || lia)].
  destruct (decide (r = 28 ∧ q = 28)) as [[-> ->]|Hd];
    [|by rewrite !(loadImages_run_dims _ (Some n) c r q) by (done || lia)].
  rewrite !(loadImages_run_data _ (Some n) c) by done.
  cbn [fst requested].
  replace (take (N.to_nat (n * 784)) (drop 16 (take m s)))
    with (take (N.to_nat (n * 784)) (drop 16 s)); [done|].
  subst m. rewrite !take_drop_commute, take_take. do 2 f_equal. lia.
Qed.

Lemma loadLabels_take s n :
  loadLabels (take (8 + N.to_nat n) s) (Some n) = loadLabels s (Some n).
Proof.
  set (m := (8 + N.to_nat n)%nat).
  destruct (decide (length s ≤ m)%nat) as [Hle|Hgt];
    [by rewrite take_ge|].
  assert (∀ off, (off + 4 ≤ 8)%nat → field (take m s) off = field s off)
    as Hf by (intros; apply field_take; lia).
  destruct (field_is_Some s 0) as [m0 H0]; [lia|].
  destruct (field_is_Some s 4) as [c H4]; [lia|].
  pose proof (Hf 0%nat ltac:(lia)) as T0. rewrite H0 in T0.
  pose proof (Hf 4%nat ltac:(lia)) as T4. rewrite H4 in T4.
  unfold loadLabels.
  destruct (decide (m0 = 2049)) as [->|Hm];
    [|by rewrite !(loadLabels_run_magic _ (Some n) m0)].
  destruct (decide (n ≤ c)) as [Hn|Hn];
    [|by rewrite !(loadLabels_run_count _ n c) by (done || lia)].
  rewrite !(loadLabels_run_data _ (Some n) c) by done.
  cbn [fst requested].
  replace (take (N.to_nat n) (drop 8 (take m s)))
    with (take (N.to_nat n) (drop 8 s)); [done|].
  subst m. rewrite !take_drop_commute, take_take. do 2 f_equal. lia.
Qed.

(** C10.  Two image streams that agree on their first [16 + n * 784] bytes
    give the same result of [loadImages] with count [n]; two label streams
    that agree on their first [8 + n] bytes give the same result of
    [loadLabels] with count [n].  In particular bytes that follow the header
    and the [n] requested records change nothing: they cause no error and
    do not show in the result. *)
Theorem decoders_ignore_unread_bytes (s1 s2 : list byte) (n : N) :
  (take (16 + N.to_nat n * 784) s1 = take (16 + N.to_nat n * 784) s2 →
   loadImages s1 (Some n) = loadImages s2 (Some n)) ∧
  (take (8 + N.to_nat n) s1 = take (8 + N.to_nat n) s2 →
   loadLabels s1 (Some n) = loadLabels s2 (Some n)) ∧
  (∀ trailing : list byte,
     (16 + N.to_nat n * 784 ≤ length s1)%nat →
     loadImages (s1 ++ trailing) (Some n) = loadImages s1 (Some n)) ∧
  (∀ trailing : list byte,
     (8 + N.to_nat n ≤ length s1)%nat →
     loadLabels (s1 ++ trailing) (Some n) = loadLabels s1 (Some n)).
Proof.
  repeat split.
  - intros E. by rewrite <-(loadImages_take s1), <-(loadImages_take s2), E.
  - intros E. by rewrite <-(loadLabels_take s1), <-(loadLabels_take s2), E.
  - intros trailing Hlen.
    rewrite <-(loadImages_take (s1 ++ trailing)), <-(loadImages_take s1).
    by rewrite take_app_le.
  - intros trailing Hlen.
    rewrite <-(loadLabels_take (s1 ++ trailing)), <-(loadLabels_take s1).
    by rewrite take_app_le.
Qed.

Lemma decoders_ignore_unread_bytes_witness :
  loadImages (image_sample ++ [xff; x00]%byte) (Some 1) =
    loadImages image_sample (Some 1) ∧
  loadLabels (label_sample ++ [xff]%byte) (Some 2) =
    loadLabels label_sample (Some 2).
Proof.
  split.
  - apply (proj1 (decoders_ignore_unread_bytes
                    (image_sample ++ [xff; x00]%byte) image_sample 1)).
    reflexivity.
  - apply (proj1 (proj2 (decoders_ignore_unread_bytes
                    (label_sample ++ [xff]%byte) label_sample 2))).
    reflexivity.
Defined.

(** ** The header tests *)

(** C4, as stated, fails: with the first byte of the magic number set to
    [ff], the exception that leaves [loadImages] (and [loadLabels]) is the
    [UnboundLocalError] of the [finally] block; the magic-number exception is
    pending behind it, and its message is the same for another observed
    magic number. *)
Lemma bad_magic_error_is_not_reported :
  field image_bad_magic 0 = Some 0xff000803 ∧
  field image_bad_magic' 0 = Some 0x7f000803 ∧
  loadImages image_bad_magic (Some 2) =
    Raised (UnboundLocalError "res")
           (Some (Exception_ "Invalid file: unexpected magic number.")) ∧
  loadImages image_bad_magic' (Some 2) = loadImages image_bad_magic (Some 2) ∧
  loadLabels label_bad_magic (Some 2) =
    Raised (UnboundLocalError "res")
           (Some (Exception_ "Invalid file: unexpected magic number.")) ∧
  (∀ msg ctx, loadImages image_bad_magic (Some 2) ≠ Raised (Exception_ msg) ctx).
Proof. by repeat split. Qed.

(** C4, amended.  For a stream of at least four bytes whose first four
    bytes, read as a big-endian unsigned 32-bit integer, differ from the
    expected magic number ([0x00000803] for [loadImages], [0x00000801] for
    [loadLabels]), the magic-number test raises
    ["Invalid file: unexpected magic number."], a fixed message; the call
    returns no value, and nothing after the first four bytes is read or
    assigned. *)
Theorem bad_magic_fails (s t : list byte) (count : option N) (m m' : N) :
  field s 0 = Some m → m ≠ 0x00000803 →
  field t 0 = Some m' → m' ≠ 0x00000801 →
  fails_on invalid_magic (loadImages s count) ∧
  snd (loadImages_run s count) =
    mk_frame (mk_gzfile s 4) count None None None ∧
  fails_on invalid_magic (loadLabels t count) ∧
  snd (loadLabels_run t count) =
    mk_frame (mk_gzfile t 4) count None None None.
Proof.
  intros H0 Hm L0 Hm'. unfold loadImages, loadLabels, fails_on.
  rewrite (loadImages_run_magic s count m), (loadLabels_run_magic t count m')
    by done.
  cbn [fst snd]. repeat split; eauto.
Qed.

Lemma bad_magic_fails_witness :
  fails_on invalid_magic (loadImages image_bad_magic None) ∧
  snd (loadImages_run image_bad_magic None) =
    mk_frame (mk_gzfile image_bad_magic 4) None None None None ∧
  fails_on invalid_magic (loadLabels label_bad_magic None) ∧
  snd (loadLabels_run label_bad_magic None) =
    mk_frame (mk_gzfile label_bad_magic 4) None None None None.
Proof.
  apply (bad_magic_fails image_bad_magic label_bad_magic None
           0xff000803 0xff000801); (reflexivity || lia).
Defined.

(** C5, as stated, fails: asking for 5 records of a stream that declares 1,
    and of a stream that declares 2, ends in the same exception; the message
    of the count test names the requested count only, and the exception that
    leaves the call is the [UnboundLocalError] of the [finally] block. *)
Lemma count_error_lacks_available_count :
  field image_count_1 4 = Some 1 ∧ field image_sample 4 = Some 2 ∧
  loadImages image_count_1 (Some 5) =
    Raised (UnboundLocalError "res")
           (Some (Exception_ "Unable to read 5 entries from data file.")) ∧
  loadImages image_sample (Some 5) = loadImages image_count_1 (Some 5) ∧
  loadLabels label_sample (Some 5) =
    Raised (UnboundLocalError "res")
           (Some (Exception_ "Unable to read 5 entires from label file.")).
Proof. by repeat split. Qed.

Lemma loadImages_run_default s c :
  field s 0 = Some 2051 → field s 4 = Some c →
  loadImages_run s None = loadImages_run s (Some c).
Proof.
  intros H0 H4. start_images. run_steps.
  change (2051 =? 2051) with true. cbv iota. run_steps.
  by rewrite N.ltb_irrefl.
Qed.

Lemma loadLabels_run_default s c :
  field s 0 = Some 2049 → field s 4 = Some c →
  loadLabels_run s None = loadLabels_run s (Some c).
Proof.
  intros H0 H4. start_labels. run_steps.
  change (2049 =? 2049) with true. cbv iota. run_steps.
  by rewrite N.ltb_irrefl.
Qed.

(** C5, amended.  For both decoders, on a stream with the expected magic
    number and declared count [c]: for an explicit requested count [k > c]
    the count test raises ["Unable to read k entries from data file."]
    (for labels ["Unable to read k entires from label file."]), which names
    the requested count and not the available one, and the call returns no
    value; with no explicit count the call is the one with count [c]. *)
Theorem count_check (s t : list byte) (k c c' : N) :
  field s 0 = Some 0x00000803 → field s 4 = Some c →
  field t 0 = Some 0x00000801 → field t 4 = Some c' →
  (c < k → fails_on (unable_images k) (loadImages s (Some k))) ∧
  (c' < k → fails_on (unable_labels k) (loadLabels t (Some k))) ∧
  loadImages_run s None = loadImages_run s (Some c) ∧
  loadLabels_run t None = loadLabels_run t (Some c').
Proof.
  intros H0 H4 L0 L4. unfold loadImages, loadLabels, fails_on.
  repeat split.
  - intros Hk. rewrite (loadImages_run_count s k c) by done. cbn. eauto.
  - intros Hk. rewrite (loadLabels_run_count t k c') by done. cbn. eauto.
  - by apply loadImages_run_default.
  - by apply loadLabels_run_default.
Qed.

Lemma count_check_witness :
  fails_on (unable_images 5) (loadImages image_sample (Some 5)) ∧
  fails_on (unable_labels 5) (loadLabels label_sample (Some 5)) ∧
  loadImages_run image_sample None = loadImages_run image_sample (Some 2) ∧
  loadLabels_run label_sample None = loadLabels_run label_sample (Some 2).
Proof.
  pose proof (count_check image_sample label_sample 5 2 2
                eq_refl eq_refl eq_refl eq_refl) as (Hi & Hl & Hd & Hd').
  split; [apply Hi; reflexivity|]. split; [apply Hl; reflexivity|].
  split; [apply Hd|apply Hd'].
Defined.

(** C6, as stated, fails: a stream that declares 1 record of 27 rows, asked
    for 5 records, fails in the count test; rows and columns are not read
    (the offset stays at 8) and the dimension error is raised nowhere. *)
Lemma count_is_checked_before_dimensions :
  field image_27_rows 4 = Some 1 ∧ field image_27_rows 8 = Some 27 ∧
  loadImages_run image_27_rows (Some 5) =
    (Raised (UnboundLocalError "res")
            (Some (Exception_ "Unable to read 5 entries from data file.")),
     mk_frame (mk_gzfile image_27_rows 8) (Some 5) None None None) ∧
  ¬ fails_on invalid_dims (loadImages image_27_rows (Some 5)).
Proof.
  repeat split.
  intros (e & ctx & [= <- <-] & [H|H]); discriminate H.
Qed.

(** C6, amended.  [loadImages] tests an explicit requested count against the
    declared count as soon as the count is read, before it reads rows and
    columns.  For an image stream whose rows or columns field differs from
    28: when the requested count is absent or at most the declared count,
    the dimension test raises
    ["Invalid file: expected 28 rows & cols per img"] and the call returns
    no value; when the requested count exceeds the declared count, the count
    test fails first and rows and columns are never read. *)
Theorem dimensions_checked_after_count (s : list byte) (count : option N)
    (c r q : N) :
  field s 0 = Some 0x00000803 → field s 4 = Some c →
  field s 8 = Some r → field s 12 = Some q → r ≠ 28 ∨ q ≠ 28 →
  (requested count c ≤ c →
   fails_on invalid_dims (loadImages s count) ∧
   offset (gz (snd (loadImages_run s count))) = 16%nat) ∧
  (c < requested count c →
   fails_on (unable_images (requested count c)) (loadImages s count) ∧
   ¬ fails_on invalid_dims (loadImages s count) ∧
   snd (loadImages_run s count) =
     mk_frame (mk_gzfile s 8) count None None None).
Proof.
  intros H0 H4 H8 H12 Hd. unfold loadImages, fails_on. split.
  - intros Hn. rewrite (loadImages_run_dims s count c r q) by done.
    cbn. split; [eauto|done].
  - intros Hn. destruct count as [k|]; cbn [requested] in *; [|lia].
    rewrite (loadImages_run_count s k c) by done. cbn [fst snd].
    repeat split; [eauto|].
    intros (e & ctx & [= <- <-] & [H|H]); discriminate H.
Qed.

Lemma dimensions_checked_after_count_witness :
  (fails_on invalid_dims (loadImages image_27_rows (Some 1)) ∧
   offset (gz (snd (loadImages_run image_27_rows (Some 1)))) = 16%nat) ∧
  (fails_on (unable_images 5) (loadImages image_27_rows (Some 5)) ∧
   ¬ fails_on invalid_dims (loadImages image_27_rows (Some 5)) ∧
   snd (loadImages_run image_27_rows (Some 5)) =
     mk_frame (mk_gzfile image_27_rows 8) (Some 5) None None None).
Proof.
  assert (27 ≠ 28 ∨ 28 ≠ 28) as Hd by lia.
  split.
  - apply (proj1 (dimensions_checked_after_count image_27_rows (Some 1)
                    1 27 28 eq_refl eq_refl eq_refl eq_refl Hd)).
    reflexivity.
  - apply (proj2 (dimensions_checked_after_count image_27_rows (Some 5)
                    1 27 28 eq_refl eq_refl eq_refl eq_refl Hd)).
    reflexivity.
Defined.

(** * Further properties of the loader *)

(** ** More on the rows of an array *)

Lemma concat_rows_from r c d : concat (rows_from r c d) = take (r * c) d.
Proof.
  revert d. induction r as [|r IH]; intros d; [done|].
  cbn [rows_from concat]. rewrite IH. apply take_take_drop.
Qed.

Lemma rows_from_take r c m d :
  (r * c ≤ m)%nat → rows_from r c (take m d) = rows_from r c d.
Proof.
  revert d m. induction r as [|r IH]; intros d m Hm; [done|].
  cbn [rows_from]. f_equal.
  - rewrite take_take. f_equal. lia.
  - replace m with (c + (m - c))%nat at 1 by lia.
    rewrite <-take_drop_commute. apply IH. lia.
Qed.

Lemma take_rows_from k r c d :
  (k ≤ r)%nat → take k (rows_from r c d) = rows_from k c d.
Proof.
  revert d r. induction k as [|k IH]; intros d r Hk; [done|].
  destruct r as [|r]; [lia|]. cbn [rows_from take]. f_equal.
  apply IH. lia.
Qed.

Lemma Forall_length_rows_from r c d :
  (r * c ≤ length d)%nat → Forall (λ row, length row = c) (rows_from r c d).
Proof.
  revert d. induction r as [|r IH]; intros d Hd; [constructor|].
  cbn [rows_from]. constructor.
  - rewrite length_take. lia.
  - apply IH. rewrite length_drop. lia.
Qed.

Lemma rows_from_singletons r d :
  (r ≤ length d)%nat → rows_from r 1 d = (λ b, [b]) <$> take r d.
Proof.
  revert d. induction r as [|r IH]; intros d Hd; [done|].
  destruct d as [|b d]; cbn in Hd; [lia|].
  cbn [rows_from take drop fmap list_fmap]. f_equal. apply IH. lia.
Qed.

Lemma lookup_chunk (s : list byte) (off i j : nat) :
  (j < 784)%nat →
  take 784 (drop (off + i * 784) s) !! j = s !! (off + i * 784 + j)%nat.
Proof. intros Hj. by rewrite lookup_take_lt, lookup_drop by done. Qed.

(** ** What the decoders return *)

(** X1.  For a label stream with the label magic number, declared count
    [c], a requested count [n ≤ c] and at least [n] label bytes after the
    8-byte header, [loadLabels] returns an array of [n] rows of one byte
    each, and row [i] holds byte [8 + i] of the stream, unchanged and in
    stream order. *)
Theorem loadLabels_records (s : list byte) (c n : N) :
  label_header s c → n ≤ c → (8 + N.to_nat n ≤ length s)%nat →
  ∃ a : ndarray,
    loadLabels s (Some n) = Returned a ∧
    shape a = (n, 1) ∧
    rows a = (λ b, [b]) <$> take (N.to_nat n) (drop 8 s) ∧
    length (rows a) = N.to_nat n ∧
    ∀ i : nat, (i < N.to_nat n)%nat →
      ∃ b, s !! (8 + i)%nat = Some b ∧ rows a !! i = Some [b].
Proof.
  intros Hh Hn Hlen.
  rewrite (loadLabels_data s (Some n) c) by done. cbn [requested].
  eexists. split; [done|]. split; [done|].
  assert (rows (mk_ndarray (n, 1) (take (N.to_nat n) (drop 8 s))) =
          (λ b, [b]) <$> take (N.to_nat n) (drop 8 s)) as Hr.
  { unfold rows. cbn [shape buffer fst snd]. change (N.to_nat 1) with 1%nat.
    rewrite rows_from_singletons by (rewrite length_take, length_drop; lia).
    by rewrite take_take, Nat.min_id. }
  rewrite Hr. split; [done|]. split.
  - rewrite length_fmap, length_take, length_drop. lia.
  - intros i Hi.
    destruct (lookup_lt_is_Some_2 s (8 + i)) as [b Hb]; [lia|].
    exists b. split; [done|].
    by rewrite list_lookup_fmap, lookup_take_lt, lookup_drop, Hb by done.
Qed.

Lemma loadLabels_records_witness :
  ∃ a : ndarray,
    loadLabels label_sample (Some 2) = Returned a ∧
    shape a = (2, 1) ∧
    rows a = (λ b, [b]) <$> take (N.to_nat 2) (drop 8 label_sample) ∧
    length (rows a) = N.to_nat 2 ∧
    ∀ i : nat, (i < N.to_nat 2)%nat →
      ∃ b, label_sample !! (8 + i)%nat = Some b ∧ rows a !! i = Some [b].
Proof.
  apply (loadLabels_records label_sample 2 2);
    [repeat split; reflexivity|lia|cbn; lia].
Defined.

(** X2.  Whatever [loadImages] returns is whole: the array has as many rows
    as were requested, every row has 784 bytes, and the rows laid end to end
    are the buffer, which is the stretch of the stream that follows the
    16-byte header.  Nothing is reordered, dropped or added. *)
Theorem loadImages_rows_partition (s : list byte) (count : option N)
    (a : ndarray) :
  loadImages s count = Returned a →
  ∃ c, field s 4 = Some c ∧
       shape a = (requested count c, 784) ∧
       length (rows a) = N.to_nat (requested count c) ∧
       Forall (λ row, length row = 784%nat) (rows a) ∧
       concat (rows a) = buffer a ∧
       buffer a = take (N.to_nat (requested count c) * 784) (drop 16 s) ∧
       length (buffer a) = (N.to_nat (requested count c) * 784)%nat.
Proof.
  intros (c & (_ & H4 & _) & Hn & Hlen & ->)%loadImages_Returned.
  exists c. unfold rows. cbn [shape buffer fst snd].
  change (N.to_nat 784) with 784%nat.
  replace (N.to_nat (requested count c * 784))
    with (N.to_nat (requested count c) * 784)%nat in * by lia.
  assert (length (take (N.to_nat (requested count c) * 784) (drop 16 s)) =
          (N.to_nat (requested count c) * 784)%nat) as Hl
    by (rewrite length_take, length_drop; lia).
  repeat split; try done.
  - apply length_rows_from.
  - apply Forall_length_rows_from. lia.
  - rewrite concat_rows_from. apply take_ge. lia.
Qed.

Lemma loadImages_rows_partition_witness :
  ∃ c, field image_sample 4 = Some c ∧
       shape (mk_ndarray (1, 784) (replicate 784 x05%byte)) =
         (requested (Some 1%N) c, 784) ∧
       length (rows (mk_ndarray (1, 784) (replicate 784 x05%byte))) =
         N.to_nat (requested (Some 1%N) c) ∧
       Forall (λ row, length row = 784%nat)
              (rows (mk_ndarray (1, 784) (replicate 784 x05%byte))) ∧
       concat (rows (mk_ndarray (1, 784) (replicate 784 x05%byte))) =
         buffer (mk_ndarray (1, 784) (replicate 784 x05%byte)) ∧
       buffer (mk_ndarray (1, 784) (replicate 784 x05%byte)) =
         take (N.to_nat (requested (Some 1%N) c) * 784) (drop 16 image_sample) ∧
       length (buffer (mk_ndarray (1, 784) (replicate 784 x05%byte))) =
         (N.to_nat (requested (Some 1%N) c) * 784)%nat.
Proof.
  apply (loadImages_rows_partition image_sample (Some 1)). reflexivity.
Defined.

(** X3.  Pixel [j] of image [i] in the array that [loadImages] returns is
    byte [16 + 784 * i + j] of the stream. *)
Theorem loadImages_pixel (s : list byte) (count : option N) (a : ndarray)
    (i j : nat) (row : list byte) :
  loadImages s count = Returned a →
  rows a !! i = Some row → (j < 784)%nat →
  row !! j = s !! (16 + i * 784 + j)%nat ∧ is_Some (row !! j).
Proof.
  intros (c & _ & Hn & Hlen & ->)%loadImages_Returned Hrow Hj.
  unfold rows in Hrow. cbn [shape buffer fst snd] in Hrow.
  change (N.to_nat 784) with 784%nat in Hrow.
  assert (i < N.to_nat (requested count c))%nat as Hi.
  { apply lookup_lt_Some in Hrow. by rewrite length_rows_from in Hrow. }
  rewrite lookup_rows_from in Hrow by done. injection Hrow as <-.
  assert (take 784 (drop (i * 784)
            (take (N.to_nat (requested count c * 784)) (drop 16 s))) =
          take 784 (drop (16 + i * 784) s)) as ->.
  { rewrite take_drop_commute, take_take, Nat.min_l by lia.
    by rewrite <-take_drop_commute, drop_drop. }
  rewrite lookup_chunk by done. split; [done|].
  apply lookup_lt_is_Some_2. lia.
Qed.

Lemma loadImages_pixel_witness :
  replicate 784 x09%byte !! 5%nat =
    image_sample !! (16 + 1 * 784 + 5)%nat ∧
  is_Some (replicate 784 x09%byte !! 5%nat).
Proof.
  apply (loadImages_pixel image_sample (Some 2)
           (mk_ndarray (2, 784)
              (replicate 784 x05%byte ++ replicate 784 x09%byte)) 1 5);
    [reflexivity|reflexivity|lia].
Defined.

(** X4.  Asking for fewer records gives a prefix: when [loadImages] returns
    for a count [n], it also returns for every [k ≤ n], and its rows are the
    first [k] rows of the larger result.  The same holds for [loadLabels]. *)
Theorem fewer_records_are_a_prefix (s : list byte) (k n : N) (a : ndarray) :
  k ≤ n →
  (loadImages s (Some n) = Returned a →
   ∃ a', loadImages s (Some k) = Returned a' ∧
         rows a' = take (N.to_nat k) (rows a) ∧
         buffer a' = take (N.to_nat k * 784) (buffer a)) ∧
  (loadLabels s (Some n) = Returned a →
   ∃ a', loadLabels s (Some k) = Returned a' ∧
         rows a' = take (N.to_nat k) (rows a) ∧
         buffer a' = take (N.to_nat k) (buffer a)).
Proof.
  intros Hk. split.
  - intros (c & Hh & Hn & Hlen & ->)%loadImages_Returned.
    cbn [requested] in *.
    rewrite (loadImages_data s (Some k) c) by (done || cbn; lia).
    cbn [requested]. eexists. split; [done|].
    unfold rows. cbn [shape buffer fst snd].
    change (N.to_nat 784) with 784%nat.
    replace (N.to_nat (k * 784)) with (N.to_nat k * 784)%nat by lia.
    replace (N.to_nat (n * 784)) with (N.to_nat n * 784)%nat by lia.
    split.
    + rewrite !rows_from_take by lia. by rewrite take_rows_from by lia.
    + rewrite take_take. f_equal. lia.
  - intros (c & Hh & Hn & Hlen & ->)%loadLabels_Returned.
    cbn [requested] in *.
    rewrite (loadLabels_data s (Some k) c) by (done || cbn; lia).
    cbn [requested]. eexists. split; [done|].
    unfold rows. cbn [shape buffer fst snd].
    change (N.to_nat 1) with 1%nat.
    split.
    + rewrite !rows_from_take by lia. by rewrite take_rows_from by lia.
    + rewrite take_take. f_equal. lia.
Qed.

Lemma fewer_records_are_a_prefix_witness :
  ∃ a', loadImages image_sample (Some 1) = Returned a' ∧
        rows a' = take (N.to_nat 1)
                    (rows (mk_ndarray (2, 784)
                       (replicate 784 x05%byte ++ replicate 784 x09%byte))) ∧
        buffer a' = take (N.to_nat 1 * 784)
                      (replicate 784 x05%byte ++ replicate 784 x09%byte).
Proof.
  apply (proj1 (fewer_records_are_a_prefix image_sample 1 2
                  (mk_ndarray (2, 784)
                     (replicate 784 x05%byte ++ replicate 784 x09%byte))
                  ltac:(lia))).
  reflexivity.
Defined.

(** ** Streams that end inside the header *)

Lemma field_None_short s off :
  (length s < off + 4)%nat → field s off = None.
Proof.
  intros H. destruct (field s off) eqn:E; [|done].
  apply field_Some_length in E. lia.
Qed.

(** X5.  A stream that ends inside its header gives no value.  With fewer
    than four bytes (the empty stream included) both decoders, and
    [mnist_load], end in the [UnboundLocalError] for [res] with
    [struct.error] pending.  An image stream that passes the magic-number
    and count tests but has fewer than 16 bytes ends the same way.  In each
    case the decoder has read the stream to its end. *)
Theorem stream_ends_in_header (s t : list byte) (count : option N) (c : N) :
  ((length s < 4)%nat →
   loadImages_run s count =
     (Raised unbound_res (Some struct_error),
      mk_frame (mk_gzfile s (length s)) count None None None) ∧
   loadLabels_run s count =
     (Raised unbound_res (Some struct_error),
      mk_frame (mk_gzfile s (length s)) count None None None) ∧
   mnist_load s t count = Raised unbound_res (Some struct_error)) ∧
  (field s 0 = Some 2051 → field s 4 = Some c → requested count c ≤ c →
   (length s < 16)%nat →
   loadImages s count = Raised unbound_res (Some struct_error) ∧
   offset (gz (snd (loadImages_run s count))) = length s).
Proof.
  split.
  - intros Hs. pose proof (field_None_short s 0 ltac:(lia)) as H0.
    assert (loadImages_run s count =
            (Raised unbound_res (Some struct_error),
             mk_frame (mk_gzfile s (length s)) count None None None)) as Hi.
    { rewrite loadImages_run_short0 by done.
      by rewrite length_take, Nat.min_r by lia. }
    split; [done|]. split.
    + rewrite loadLabels_run_short0 by done.
      by rewrite length_take, Nat.min_r by lia.
    + unfold mnist_load, loadImages. by rewrite Hi.
  - intros H0 H4 Hn Hs. unfold loadImages.
    pose proof (field_Some_length _ _ _ H4).
    destruct (field s 8) as [r|] eqn:H8.
    + pose proof (field_Some_length _ _ _ H8).
      rewrite (loadImages_run_short12 s count c r)
        by (done || apply field_None_short; lia).
      cbn [fst snd gz offset]. split; [done|].
      rewrite length_take, length_drop. lia.
    + rewrite (loadImages_run_short8 s count c) by done.
      cbn [fst snd gz offset]. split; [done|].
      assert (length s < 8 + 4)%nat.
      { destruct (decide (8 + 4 ≤ length s)%nat) as [Hl|Hl]; [|lia].
        destruct (field_is_Some s 8 Hl) as [? ?]. congruence. }
      rewrite length_take, length_drop. lia.
Qed.

Lemma stream_ends_in_header_witness :
  (loadImages_run [] None =
     (Raised unbound_res (Some struct_error),
      mk_frame (mk_gzfile [] (length (@nil byte))) None None None None) ∧
   loadLabels_run [] None =
     (Raised unbound_res (Some struct_error),
      mk_frame (mk_gzfile [] (length (@nil byte))) None None None None) ∧
   mnist_load [] label_sample None =
     Raised unbound_res (Some struct_error)) ∧
  (loadImages (take 13 image_sample) (Some 1) =
     Raised unbound_res (Some struct_error) ∧
   offset (gz (snd (loadImages_run (take 13 image_sample) (Some 1)))) =
     length (take 13 image_sample)).
Proof.
  split.
  - apply (proj1 (stream_ends_in_header [] label_sample None 0)). cbn. lia.
  - apply (proj2 (stream_ends_in_header (take 13 image_sample) label_sample
                    (Some 1) 2)); [reflexivity|reflexivity|cbn; lia|cbn; lia].
Defined.

(** ** The exceptions that leave a decoder *)

(** How a call of [loadImages] can end, with the header field that decides. *)
Lemma loadImages_cases s count :
  (∃ a, loadImages s count = Returned a) ∨
  (∃ m, field s 0 = Some m ∧ m ≠ 2051 ∧
        loadImages s count = Raised unbound_res (Some invalid_magic)) ∨
  ((field s 0 = None ∨ field s 0 = Some 2051) ∧
   ((∃ x, loadImages s count = Raised unbound_res (Some x) ∧
          (x = struct_error ∨ x = invalid_dims ∨
           ∃ k, count = Some k ∧ x = unable_images k)) ∨
    (∃ size n, loadImages s count = Raised (ValueError size (n, 784)) None ∧
               size < n * 784))).
Proof.
  unfold loadImages.
  destruct (field s 0) as [m|] eqn:H0; cycle 1.
  { right; right. split; [by left|]. left. exists struct_error.
    rewrite loadImages_run_short0 by done. eauto. }
  destruct (decide (m = 2051)) as [->|Hm]; cycle 1.
  { right; left. exists m. by rewrite (loadImages_run_magic s count m). }
  destruct (field s 4) as [c|] eqn:H4; cycle 1.
  { right; right. split; [by right|]. left. exists struct_error.
    rewrite loadImages_run_short4 by done. eauto. }
  destruct (decide (requested count c ≤ c)) as [Hn|Hn]; cycle 1.
  { destruct count as [k|]; cbn [requested] in Hn; [|lia].
    right; right. split; [by right|]. left. exists (unable_images k).
    rewrite (loadImages_run_count s k c) by (done || lia). eauto 10. }
  destruct (field s 8) as [r|] eqn:H8; cycle 1.
  { right; right. split; [by right|]. left. exists struct_error.
    rewrite (loadImages_run_short8 s count c) by done. eauto. }
  destruct (field s 12) as [q|] eqn:H12; cycle 1.
  { right; right. split; [by right|]. left. exists struct_error.
    rewrite (loadImages_run_short12 s count c r) by done. eauto. }
  destruct (decide (r = 28 ∧ q = 28)) as [[-> ->]|Hd]; cycle 1.
  { right; right. split; [by right|]. left. exists invalid_dims.
    rewrite (loadImages_run_dims s count c r q) by (done || lia). eauto. }
  rewrite (loadImages_run_data s count c) by done. cbn [fst].
  destruct (N.eqb_spec
              (N.of_nat (length (take (N.to_nat (requested count c * 784))
                                      (drop 16 s))))
              (requested count c * 784)) as [E|E]; [by eauto|].
  right; right. split; [by right|]. right. do 2 eexists. split; [done|].
  rewrite length_take in *. lia.
Qed.

Lemma loadLabels_cases s count :
  (∃ a, loadLabels s count = Returned a) ∨
  (∃ m, field s 0 = Some m ∧ m ≠ 2049 ∧
        loadLabels s count = Raised unbound_res (Some invalid_magic)) ∨
  ((field s 0 = None ∨ field s 0 = Some 2049) ∧
   ((∃ x, loadLabels s count = Raised unbound_res (Some x) ∧
          (x = struct_error ∨ ∃ k, count = Some k ∧ x = unable_labels k)) ∨
    (∃ size n, loadLabels s count = Raised (ValueError size (n, 1)) None ∧
               size < n))).
Proof.
  unfold loadLabels.
  destruct (field s 0) as [m|] eqn:H0; cycle 1.
  { right; right. split; [by left|]. left. exists struct_error.
    rewrite loadLabels_run_short0 by done. eauto. }
  destruct (decide (m = 2049)) as [->|Hm]; cycle 1.
  { right; left. exists m. by rewrite (loadLabels_run_magic s count m). }
  destruct (field s 4) as [c|] eqn:H4; cycle 1.
  { right; right. split; [by right|]. left. exists struct_error.
    rewrite loadLabels_run_short4 by done. eauto. }
  destruct (decide (requested count c ≤ c)) as [Hn|Hn]; cycle 1.
  { destruct count as [k|]; cbn [requested] in Hn; [|lia].
    right; right. split; [by right|]. left. exists (unable_labels k).
    rewrite (loadLabels_run_count s k c) by (done || lia). eauto 10. }
  rewrite (loadLabels_run_data s count c) by done. cbn [fst].
  destruct (N.eqb_spec
              (N.of_nat (length (take (N.to_nat (requested count c))
                                      (drop 8 s))))
              (requested count c * 1)) as [E|E]; [by eauto|].
  right; right. split; [by right|]. right. do 2 eexists. split; [done|].
  rewrite length_take in *. lia.
Qed.



(** ** The magic-number test, byte by byte *)

Lemma u8_inj (a b : byte) : u8 a = u8 b → a = b.
Proof.
  unfold u8. intros E.
  pose proof (Byte.of_to_N a) as Ha. pose proof (Byte.of_to_N b) as Hb.
  rewrite E in Ha. congruence.
Qed.

Lemma field_magic_bytes (s : list byte) (x : byte) :
  field s 0 = Some (2048 + u8 x) ↔ take 4 s = [x00; x00; x08; x]%byte.
Proof.
  unfold field. rewrite drop_0. split.
  - destruct (take 4 s) as [|b0 [|b1 [|b2 [|b3 [|? ?]]]]]; try discriminate.
    cbn. intros [= E].
    pose proof (u8_lt b0). pose proof (u8_lt b1).
    pose proof (u8_lt b2). pose proof (u8_lt b3). pose proof (u8_lt x).
    assert (b0 = x00) as -> by (apply u8_inj; change (u8 x00) with 0; lia).
    assert (b1 = x00) as -> by (apply u8_inj; change (u8 x00) with 0; lia).
    assert (b2 = x08) as -> by (apply u8_inj; change (u8 x08) with 8; lia).
    assert (b3 = x) as -> by (apply u8_inj; lia).
    done.
  - intros ->. cbn. f_equal; lia.
Qed.

(** X7.  On a stream of at least four bytes, the magic-number error is
    raised in [loadImages] exactly when the first four bytes are not
    [00 00 08 03], and in [loadLabels] exactly when they are not
    [00 00 08 01]: the test against [0x03080000] (and [0x01080000]) of the
    natively read integer is a test of these bytes in file order. *)
Theorem magic_test_bytes (s : list byte) (count : option N) :
  (4 ≤ length s)%nat →
  (fails_on invalid_magic (loadImages s count) ↔
   take 4 s ≠ [x00; x00; x08; x03]%byte) ∧
  (fails_on invalid_magic (loadLabels s count) ↔
   take 4 s ≠ [x00; x00; x08; x01]%byte).
Proof.
  intros Hlen.
  destruct (field_is_Some s 0) as [m H0]; [lia|].
  pose proof (field_magic_bytes s x03) as B3.
  pose proof (field_magic_bytes s x01) as B1.
  change (2048 + u8 x03) with 2051 in B3.
  change (2048 + u8 x01) with 2049 in B1.
  split; split.
  - intros (e & ctx & He & Hx) Hb. apply B3 in Hb.
    destruct (loadImages_cases s count)
      as [[a Ha]|[(m' & H0' & Hm & _)|[_ [(x & Hr & Hc)|(? & ? & Hv & _)]]]];
      try rewrite He in *; try done.
    + congruence.
    + injection Hr as -> ->.
      destruct Hx as [Hx|[= ->]]; [done|].
      destruct Hc as [Hc|[Hc|(k & _ & Hc)]]; try done.
    + injection Hv as -> ->. by destruct Hx.
  - intros Hb. unfold fails_on, loadImages.
    rewrite (loadImages_run_magic s count m); [cbn; eauto|done|].
    intros ->. by apply Hb, B3.
  - intros (e & ctx & He & Hx) Hb. apply B1 in Hb.
    destruct (loadLabels_cases s count)
      as [[a Ha]|[(m' & H0' & Hm & _)|[_ [(x & Hr & Hc)|(? & ? & Hv & _)]]]];
      try rewrite He in *; try done.
    + congruence.
    + injection Hr as -> ->.
      destruct Hx as [Hx|[= ->]]; [done|].
      destruct Hc as [Hc|(k & _ & Hc)]; try done.
    + injection Hv as -> ->. by destruct Hx.
  - intros Hb. unfold fails_on, loadLabels.
    rewrite (loadLabels_run_magic s count m); [cbn; eauto|done|].
    intros ->. by apply Hb, B1.
Qed.

Lemma magic_test_bytes_witness :
  (fails_on invalid_magic (loadImages image_bad_magic None) ↔
   take 4 image_bad_magic ≠ [x00; x00; x08; x03]%byte) ∧
  (fails_on invalid_magic (loadLabels image_bad_magic None) ↔
   take 4 image_bad_magic ≠ [x00; x00; x08; x01]%byte).
Proof.
  apply (magic_test_bytes image_bad_magic None). cbn. lia.
Defined.

(** X8.  The two kinds of file are told apart: [loadImages] rejects every
    label stream and [loadLabels] every image stream at the magic-number
    test, so [mnist_load] called with its two sources swapped fails there,
    after four bytes of the first file. *)
Theorem swapped_sources_fail (s t : list byte) (count : option N) (c c' : N) :
  image_header s c → label_header t c' →
  loadImages_run t count =
    (Raised unbound_res (Some invalid_magic),
     mk_frame (mk_gzfile t 4) count None None None) ∧
  loadLabels_run s count =
    (Raised unbound_res (Some invalid_magic),
     mk_frame (mk_gzfile s 4) count None None None) ∧
  mnist_load t s count = Raised unbound_res (Some invalid_magic).
Proof.
  intros (H0 & _) (L0 & _).
  assert (loadImages_run t count =
          (Raised unbound_res (Some invalid_magic),
           mk_frame (mk_gzfile t 4) count None None None)) as Hi
    by (by apply (loadImages_run_magic t count 2049)).
  split; [done|]. split.
  - by apply (loadLabels_run_magic s count 2051).
  - unfold mnist_load, loadImages. by rewrite Hi.
Qed.

Lemma swapped_sources_fail_witness :
  loadImages_run label_sample (Some 2) =
    (Raised unbound_res (Some invalid_magic),
     mk_frame (mk_gzfile label_sample 4) (Some 2) None None None) ∧
  loadLabels_run image_sample (Some 2) =
    (Raised unbound_res (Some invalid_magic),
     mk_frame (mk_gzfile image_sample 4) (Some 2) None None None) ∧
  mnist_load label_sample image_sample (Some 2) =
    Raised unbound_res (Some invalid_magic).
Proof.
  apply (swapped_sources_fail image_sample label_sample (Some 2) 2 2);
    repeat split; reflexivity.
Defined.

(** ** The loop of [mnist_load] *)

Lemma vectorized_digit_row (b : byte) :
  u8 b ≤ 9 →
  ∃ v, vectorized_digit (IntArray [u8 b]) = Returned v ∧
       is_one_hot (N.to_nat (u8 b)) v.
Proof.
  generalize (u8 b). intros j Hj.
  assert (j = 0 ∨ j = 1 ∨ j = 2 ∨ j = 3 ∨ j = 4 ∨
          j = 5 ∨ j = 6 ∨ j = 7 ∨ j = 8 ∨ j = 9) as Hc by lia.
  destruct Hc as [->|[->|[->|[->|[->|[->|[->|[->|[->| ->]]]]]]]]];
    (eexists; split; [reflexivity|];
     repeat split; try reflexivity;
     intros i Hi Hne;
     do 10 (destruct i as [|i]; [first [reflexivity | by destruct Hne]|]);
     cbn in Hi; lia).
Qed.

Lemma vectorized_digit_row_bad (b : byte) :
  9 < u8 b →
  vectorized_digit (IntArray [u8 b]) = Raised (IndexError (u8 b) 10) None.
Proof.
  intros Hj. unfold vectorized_digit, setitem.
  change (N.of_nat (length zeros10)) with 10. cbn.
  case_decide; [done|lia].
Qed.

Lemma vectorize_loop_ok (bs : list byte) (acc : list (list float)) :
  Forall (λ b, u8 b ≤ 9) bs →
  ∃ vs, vectorize_loop ((λ b, [b]) <$> bs) acc = Returned (acc ++ vs) ∧
        Forall2 (λ b v, is_one_hot (N.to_nat (u8 b)) v) bs vs.
Proof.
  intros Hbs. revert acc.
  induction Hbs as [|b bs Hb _ IH]; intros acc.
  - exists []. by rewrite app_nil_r.
  - destruct (vectorized_digit_row b Hb) as (v & Hv & Hone).
    destruct (IH (acc ++ [v])) as (vs & Hvs & Hall).
    exists (v :: vs). split; [|by constructor].
    cbn [fmap list_fmap vectorize_loop]. rewrite Hv. cbn.
    by rewrite Hvs, <-app_assoc.
Qed.

Lemma vectorize_loop_bad (good rest : list byte) (b : byte)
    (acc : list (list float)) :
  Forall (λ b, u8 b ≤ 9) good → 9 < u8 b →
  vectorize_loop ((λ b, [b]) <$> (good ++ b :: rest)) acc =
  Raised (IndexError (u8 b) 10) None.
Proof.
  intros Hgood Hb. revert acc.
  induction Hgood as [|g good Hg _ IH]; intros acc.
  - cbn [app fmap list_fmap vectorize_loop].
    by rewrite (vectorized_digit_row_bad b Hb).
  - destruct (vectorized_digit_row g Hg) as (v & Hv & _).
    cbn [app fmap list_fmap vectorize_loop]. rewrite Hv. cbn. apply IH.
Qed.

Lemma rows_labels (n : N) (d : list byte) :
  (N.to_nat n ≤ length d)%nat →
  rows (mk_ndarray (n, 1) (take (N.to_nat n) d)) =
  (λ b, [b]) <$> take (N.to_nat n) d.
Proof.
  intros Hd. unfold rows. cbn [shape buffer fst snd].
  change (N.to_nat 1) with 1%nat.
  rewrite rows_from_singletons by (rewrite length_take; lia).
  by rewrite take_take, Nat.min_id.
Qed.

Lemma mnist_load_data (s t : list byte) (count : option N) (c c' : N) :
  image_header s c → label_header t c' →
  requested count c ≤ c → requested count c' ≤ c' →
  let n := requested count c in
  let n' := requested count c' in
  (16 + N.to_nat (n * 784) ≤ length s)%nat →
  (8 + N.to_nat n' ≤ length t)%nat →
  Forall (λ b, u8 b ≤ 9) (take (N.to_nat n') (drop 8 t)) →
  ∃ (images : ndarray) (vectorized_labels : list (list float)),
    mnist_load s t count = Returned (images, vectorized_labels) ∧
    loadImages s count = Returned images ∧
    length (rows images) = N.to_nat n ∧
    length vectorized_labels = N.to_nat n' ∧
    Forall2 (λ b v, is_one_hot (N.to_nat (u8 b)) v)
            (take (N.to_nat n') (drop 8 t)) vectorized_labels.
Proof.
  intros Hs Ht Hn Hn' n n' Hlen Hlen' Hnine.
  destruct (vectorize_loop_ok _ [] Hnine) as (vs & Hvs & Hall).
  exists (mk_ndarray (n, 784) (take (N.to_nat (n * 784)) (drop 16 s))), vs.
  pose proof (loadImages_data s count c Hs Hn Hlen) as Hi.
  split; [|split; [done|split; [|split; [|done]]]].
  - unfold mnist_load.
    rewrite Hi, (loadLabels_data t count c' Ht Hn' Hlen'). cbn.
    fold n'. rewrite rows_labels by (rewrite length_drop; lia).
    by rewrite Hvs.
  - unfold rows. cbn [shape fst]. apply length_rows_from.
  - apply Forall2_length in Hall. rewrite <-Hall, length_take, length_drop.
    lia.
Qed.

(** X9.  [mnist_load] on an image stream and a label stream with valid
    headers, requested counts within the declared ones, the data bytes
    present and every requested label byte at most 9: it returns the array
    of [loadImages] and one vector per requested label, in stream order,
    each the one-hot vector of its label byte. *)
Theorem mnist_load_returns (s t : list byte) (count : option N) (c c' : N) :
  image_header s c → label_header t c' →
  requested count c ≤ c → requested count c' ≤ c' →
  let n := requested count c in
  let n' := requested count c' in
  (16 + N.to_nat (n * 784) ≤ length s)%nat →
  (8 + N.to_nat n' ≤ length t)%nat →
  Forall (λ b, u8 b ≤ 9) (take (N.to_nat n') (drop 8 t)) →
  ∃ (images : ndarray) (vectorized_labels : list (list float)),
    mnist_load s t count = Returned (images, vectorized_labels) ∧
    loadImages s count = Returned images ∧
    length (rows images) = N.to_nat n ∧
    length vectorized_labels = N.to_nat n' ∧
    Forall2 (λ b v, is_one_hot (N.to_nat (u8 b)) v)
            (take (N.to_nat n') (drop 8 t)) vectorized_labels.
Proof. apply mnist_load_data. Qed.

Lemma mnist_load_returns_witness :
  ∃ (images : ndarray) (vectorized_labels : list (list float)),
    mnist_load image_sample label_sample None =
      Returned (images, vectorized_labels) ∧
    loadImages image_sample None = Returned images ∧
    length (rows images) = N.to_nat (requested None 2) ∧
    length vectorized_labels = N.to_nat (requested None 2) ∧
    Forall2 (λ b v, is_one_hot (N.to_nat (u8 b)) v)
            (take (N.to_nat (requested None 2)) (drop 8 label_sample))
            vectorized_labels.
Proof.
  apply (mnist_load_returns image_sample label_sample None 2 2).
  - repeat split; reflexivity.
  - repeat split; reflexivity.
  - cbn. lia.
  - cbn. lia.
  - cbn. lia.
  - cbn. lia.
  - cbn. repeat constructor; cbn; lia.
Defined.

(** X10.  [loadLabels] returns label bytes as they are, whatever their
    value; the range is met only in the loop of [mnist_load].  When the
    first requested label byte above 9 is [b], both decoders having
    returned, [mnist_load] fails with the [IndexError] for index [b] and
    size 10, with nothing pending, and returns neither the images nor the
    vectors built so far. *)
Theorem mnist_load_label_out_of_range (s t : list byte) (count : option N)
    (c c' : N) (good rest : list byte) (b : byte) :
  image_header s c → label_header t c' →
  requested count c ≤ c → requested count c' ≤ c' →
  (16 + N.to_nat (requested count c * 784) ≤ length s)%nat →
  (8 + N.to_nat (requested count c') ≤ length t)%nat →
  take (N.to_nat (requested count c')) (drop 8 t) = good ++ b :: rest →
  Forall (λ b, u8 b ≤ 9) good → 9 < u8 b →
  (∃ labels, loadLabels t count = Returned labels ∧
             rows labels !! length good = Some [b]) ∧
  (∃ images, loadImages s count = Returned images) ∧
  mnist_load s t count = Raised (IndexError (u8 b) 10) None.
Proof.
  intros Hs Ht Hn Hn' Hlen Hlen' Hsplit Hgood Hb.
  pose proof (loadImages_data s count c Hs Hn Hlen) as Hi.
  pose proof (loadLabels_data t count c' Ht Hn' Hlen') as Hl.
  cbv zeta in Hi, Hl.
  assert (rows (mk_ndarray (requested count c', 1)
                  (take (N.to_nat (requested count c')) (drop 8 t))) =
          (λ b, [b]) <$> (good ++ b :: rest)) as Hr
    by (rewrite rows_labels by (rewrite length_drop; lia); by rewrite Hsplit).
  split; [|split; [by eauto|]].
  - eexists. split; [done|]. rewrite Hr, list_lookup_fmap.
    by rewrite lookup_app_r, Nat.sub_diag by lia.
  - unfold mnist_load. rewrite Hi, Hl. cbn. rewrite Hr.
    by rewrite (vectorize_loop_bad good rest b [] Hgood Hb).
Qed.

Lemma mnist_load_label_out_of_range_witness :
  (∃ labels, loadLabels label_out_of_range (Some 2) = Returned labels ∧
             rows labels !! length [x03%byte] = Some [x0a%byte]) ∧
  (∃ images, loadImages image_sample (Some 2) = Returned images) ∧
  mnist_load image_sample label_out_of_range (Some 2) =
    Raised (IndexError (u8 x0a) 10) None.
Proof.
  apply (mnist_load_label_out_of_range image_sample label_out_of_range
           (Some 2) 2 2 [x03%byte] [] x0a).
  - repeat split; reflexivity.
  - repeat split; reflexivity.
  - cbn. lia.
  - cbn. lia.
  - cbn. lia.
  - cbn. lia.
  - reflexivity.
  - repeat constructor. cbn. lia.
  - cbn. lia.
Defined.

(** X11.  With no count given, each decoder takes the count its own file
    declares, and [mnist_load] does not compare the two: for an image
    stream and a label stream that declare different counts (data present,
    labels at most 9) it returns as many images as the one declares and as
    many vectors as the other, two sequences of different lengths. *)
Theorem mnist_load_counts_not_compared (s t : list byte) (c c' : N) :
  image_header s c → label_header t c' → c ≠ c' →
  (16 + N.to_nat (c * 784) ≤ length s)%nat →
  (8 + N.to_nat c' ≤ length t)%nat →
  Forall (λ b, u8 b ≤ 9) (take (N.to_nat c') (drop 8 t)) →
  ∃ (images : ndarray) (vectorized_labels : list (list float)),
    mnist_load s t None = Returned (images, vectorized_labels) ∧
    length (rows images) = N.to_nat c ∧
    length vectorized_labels = N.to_nat c' ∧
    length (rows images) ≠ length vectorized_labels.
Proof.
  intros Hs Ht Hne Hlen Hlen' Hnine.
  destruct (mnist_load_data s t None c c') as (im & vl & H);
    try done; cbn [requested]; try lia.
  destruct H as (Hm & _ & Hi & Hv & _). cbn [requested] in *.
  exists im, vl. repeat split; try done. lia.
Qed.

Lemma mnist_load_counts_not_compared_witness :
  ∃ (images : ndarray) (vectorized_labels : list (list float)),
    mnist_load image_count_1 label_sample None =
      Returned (images, vectorized_labels) ∧
    length (rows images) = N.to_nat 1 ∧
    length vectorized_labels = N.to_nat 2 ∧
    length (rows images) ≠ length vectorized_labels.
Proof.
  apply (mnist_load_counts_not_compared image_count_1 label_sample 1 2).
  - repeat split; reflexivity.
  - repeat split; reflexivity.
  - lia.
  - cbn. lia.
  - cbn. lia.
  - cbn. repeat constructor; cbn; lia.
Defined.

(** X12.  A whole file comes back as it is: for a 16-byte header that
    declares [c] images of 28 by 28, followed by exactly [c * 784] data
    bytes, [loadImages] with no count returns [c] rows of 784 bytes whose
    concatenation is the data section, byte for byte; for an 8-byte label
    header that declares [c] labels, followed by exactly [c] bytes,
    [loadLabels] with no count returns these bytes. *)
Theorem whole_file_round_trip (h data : list byte) (c : N) :
  (length h = 16%nat → image_header (h ++ data) c →
   length data = (N.to_nat c * 784)%nat →
   ∃ a, loadImages (h ++ data) None = Returned a ∧
        shape a = (c, 784) ∧
        length (rows a) = N.to_nat c ∧
        Forall (λ row, length row = 784%nat) (rows a) ∧
        concat (rows a) = data) ∧
  (length h = 8%nat → label_header (h ++ data) c →
   length data = N.to_nat c →
   ∃ a, loadLabels (h ++ data) None = Returned a ∧
        shape a = (c, 1) ∧
        rows a = (λ b, [b]) <$> data ∧
        concat (rows a) = data).
Proof.
  split.
  - intros Hh Hhdr Hd.
    rewrite (loadImages_data (h ++ data) None c);
      [|done|cbn; lia|cbn [requested]; rewrite length_app; lia].
    cbn [requested].
    rewrite drop_app_length' by done. rewrite take_ge by lia.
    eexists. split; [done|]. split; [done|].
    unfold rows. cbn [shape buffer fst snd].
    change (N.to_nat 784) with 784%nat.
    split; [apply length_rows_from|]. split.
    + apply Forall_length_rows_from. lia.
    + rewrite concat_rows_from. apply take_ge. lia.
  - intros Hh Hhdr Hd.
    rewrite (loadLabels_data (h ++ data) None c);
      [|done|cbn; lia|cbn [requested]; rewrite length_app; lia].
    cbn [requested].
    rewrite drop_app_length' by done.
    eexists. split; [done|]. split; [done|].
    rewrite rows_labels by lia. rewrite take_ge by lia. split; [done|].
    clear. induction data as [|b data IH]; [done|]. cbn. by f_equal.
Qed.

Lemma whole_file_round_trip_witness :
  ∃ a, loadImages (img_header x02 x1c x1c ++
                   (replicate 784 x05 ++ replicate 784 x09)%byte) None =
         Returned a ∧
       shape a = (2, 784) ∧
       length (rows a) = N.to_nat 2 ∧
       Forall (λ row, length row = 784%nat) (rows a) ∧
       concat (rows a) = (replicate 784 x05 ++ replicate 784 x09)%byte.
Proof.
  apply (proj1 (whole_file_round_trip (img_header x02 x1c x1c)
                  (replicate 784 x05 ++ replicate 784 x09)%byte 2)).
  - reflexivity.
  - repeat split; reflexivity.
  - reflexivity.
Defined.
